(** * PumpSwap SDK: pool discovery, pool selection, swap quotes and slippage

    A shallow embedding of [PoolService] (services/pool.service.ts) and of
    the quoting helpers of [PumpSwapSDK] (sdk/pumpswap.sdk.ts); the text of
    both classes is in src/cli/buy-cli.ts.

    - a JS [bigint] is a [Z]; [/] on bigints truncates toward zero ([Z.quot])
      and throws a [RangeError] on a zero divisor;
    - the reserves of a decoded pool account are [BN] objects (bn.js), which
      is what the account coder of Anchor produces for a 64-bit field, and
      not bigints as types/index.ts declares them: the operators of the code
      act on them through the coercions of JS (module [BN] below);
    - a JS [number] is an IEEE 754 binary64 value, here a [spec_float] with
      [prec = 53] and [emax = 1024];
    - a rejected promise or a thrown exception is the [Throw] case of
      [result]; [await] in a [try { ... } catch (e) { log; throw e }] block
      is the bind of that monad (logging does not change any result);
    - the RPC connection and the Anchor account coder are collaborators that
      the services receive: they are the variables of the sections below. *)

From Stdlib Require Import ZArith List String Ascii Bool Lia.
From Stdlib Require Strings.Byte.
From Stdlib Require Import SpecFloat.
From Stdlib Require Import DecimalString.
From Stdlib Require Decimal DecimalPos DecimalZ.
Import ListNotations.
Open Scope string_scope.
Open Scope list_scope.
Open Scope Z_scope.

(** ** Exceptions and promises *)

Inductive error : Type :=
| Error (message : string)        (* [new Error(message)] *)
| RangeError (message : string)   (* bigint division by zero *)
| TypeError (message : string)    (* a number and a bigint under one operator *)
| RpcError (message : string)     (* a rejected RPC request *)
| DecodeError (message : string). (* the account coder refused the bytes *)

Inductive result (A : Type) : Type :=
| Ok (a : A)
| Throw (e : error).
Arguments Ok {A} a.
Arguments Throw {A} e.

Definition bind {A B : Type} (r : result A) (k : A -> result B) : result B :=
  match r with
  | Ok a => k a
  | Throw e => Throw e
  end.

Declare Scope js_scope.
Delimit Scope js_scope with js.
Notation "'let*' x ':=' r 'in' k" := (bind r (fun x => k))
  (at level 10, x pattern, r at level 100, k at level 200) : js_scope.
Open Scope js_scope.

(** [array.map(f)] with a callback that may throw: the first throw aborts. *)
Fixpoint map_throwing {A B : Type} (f : A -> result B) (l : list A)
  : result (list B) :=
  match l with
  | [] => Ok []
  | x :: xs =>
      let* y := f x in
      let* ys := map_throwing f xs in
      Ok (y :: ys)
  end.

(** [Promise.all(ps)]: fulfilled with all the values, in the order of [ps],
    when every promise is fulfilled, and rejected as soon as one is.  The
    outcomes are given here as values, so the rejection reported is the one of
    the first rejected promise of the array; no theorem below depends on which
    rejection is reported when several promises are rejected. *)
Fixpoint Promise_all {A : Type} (ps : list (result A)) : result (list A) :=
  match ps with
  | [] => Ok []
  | p :: ps' =>
      let* v := p in
      let* vs := Promise_all ps' in
      Ok (v :: vs)
  end.

(** ** Numbers *)

Module JS.

Definition number : Type := spec_float.

Definition prec : Z := 53.
Definition emax : Z := 1024.

(** [Number(z)] for a bigint [z]: the nearest double, ties to even. *)
Definition Number (z : Z) : number := binary_normalize prec emax z 0 false.

Definition div (x y : number) : number := SFdiv prec emax x y.

(** [x > y] and [x <= y]; both are false when an operand is NaN. *)
Definition gt (x y : number) : bool := SFltb y x.
Definition le (x y : number) : bool := SFleb x y.

Definition zero : number := S754_zero false.

(** Truthiness of a number: [0], [-0] and [NaN] are falsy. *)
Definition truthy (x : number) : bool :=
  match x with
  | S754_zero _ | S754_nan => false
  | _ => true
  end.

(** [a / b] on bigints. *)
Definition bigint_div (a b : Z) : result Z :=
  if b =? 0 then Throw (RangeError "Division by zero") else Ok (Z.quot a b).

(** [x * y] and [x - y] on numbers. *)
Definition mul (x y : number) : number := SFmul prec emax x y.
Definition sub (x y : number) : number := SFsub prec emax x y.

(** [x * z] for a number [x] and a bigint [z]: the operands are of two
    numeric types, which [*] refuses. *)
Definition mul_number_bigint (x : number) (z : Z) : result Z :=
  Throw (TypeError "Cannot mix BigInt and other types, use explicit conversions").

(** The decimal text of an integer: [z.toString()] for a bigint. *)
Definition decimal (z : Z) : string := NilZero.string_of_int (Z.to_int z).

(** [Number(s)] for a text [s] of decimal digits with an optional sign, which
    are the only texts that the code turns into numbers (they are decimal
    texts of integers, or two of them one after the other): the nearest
    double of the integer read, NaN when the text is not of that form, 0
    for the empty text.  Fractions, exponents, radix prefixes, [Infinity] and
    white space do not occur in those texts and are not read here. *)
Definition unsigned_text (s : string) : number :=
  match NilZero.uint_of_string s with
  | Some digits => Number (Z.of_uint digits)
  | None => S754_nan
  end.

Definition StringToNumber (s : string) : number :=
  match s with
  | EmptyString => S754_zero false
  | String "-"%char rest => SFopp (unsigned_text rest)
  | String "+"%char rest => unsigned_text rest
  | _ => unsigned_text s
  end.

End JS.

(** ** BN objects

    A [BN] holds an integer of any size; it is represented by that integer.
    It defines [toString] (decimal by default) and no [valueOf], so where JS
    needs a primitive value it takes the decimal text.  Hence a [BN] is
    truthy like every object, is never [===] to a bigint, reads as the
    number of its text under [Number], [*], [-] and [/], and is its text
    under [+]. *)
Module BN.

Definition t : Type := Z.

Definition toString (b : t) : string := JS.decimal b.

(** [!b] is false: [truthy b]. *)
Definition truthy (b : t) : bool := true.

(** [b === z] for a bigint [z]. *)
Definition strict_equal_bigint (b : t) (z : Z) : bool := false.

(** [Number(b)], and [b] as an operand of [*], [-] or [/]: the number of
    its decimal text, which is the double nearest to the integer. *)
Definition toNumber (b : t) : JS.number := JS.Number b.

(** [b + z] for a bigint [z]: the two texts, one after the other. *)
Definition plus_bigint (b : t) (z : Z) : string :=
  (toString b ++ JS.decimal z)%string.

End BN.

(** The characters of the texts above: decimal digits and the minus sign. *)
Definition signed_digit (c : ascii) : bool :=
  match c with
  | "0" | "1" | "2" | "3" | "4" | "5" | "6" | "7" | "8" | "9" | "-" => true
  | _ => false
  end%char.

Fixpoint every_char (P : ascii -> bool) (s : string) : bool :=
  match s with
  | EmptyString => true
  | String c rest => P c && every_char P rest
  end.

(** ** Configuration (config/index.ts) and types (types/index.ts) *)

Definition PublicKey : Type := string.   (* the base58 text of the key *)
Definition toBase58 (k : PublicKey) : string := k.

Definition Buffer : Type := list Byte.byte.

Module PROGRAM_IDS.
Definition PUMP_AMM : PublicKey := "pAMMBay6oceH9fJKBRHGP5D4bD4sWpmSwMn52FMfXEA".
End PROGRAM_IDS.

Module TOKEN_ADDRESSES.
Definition WSOL : PublicKey := "So11111111111111111111111111111111111111112".
End TOKEN_ADDRESSES.

Module DEFAULTS.
Definition DECIMALS : Z := 6.
End DEFAULTS.

(** [LAMPORTS_PER_SOL] of @solana/web3.js and [Math.pow(10, DECIMALS)]. *)
Definition LAMPORTS_PER_SOL : JS.number := JS.Number 1000000000.
Definition pow10_DECIMALS : JS.number := JS.Number (10 ^ DEFAULTS.DECIMALS).

(** The fields of a decoded pool account that the functions below read: raw
    smallest-unit amounts, [BN] objects as the account coder decodes 64-bit
    fields (types/index.ts declares them [bigint]; [poolData] is typed [any]
    where it is decoded). *)
Record PoolData : Type := {
  baseReserve : BN.t;
  quoteReserve : BN.t
}.

Record Pool : Type := {
  address : PublicKey;
  is_native_base : bool;
  poolData : PoolData
}.

Record Reserves : Type := {
  native : JS.number;
  token : JS.number
}.

(** [interface PoolWithPrice extends Pool]. *)
Record PoolWithPrice : Type := {
  toPool :> Pool;
  price : JS.number;
  reserves : Reserves
}.

(** ** The collaborators: RPC connection and account coder *)

Inductive Filter : Type :=
| dataSize (n : Z)
| memcmp (offset : Z) (bytes : string).

Record KeyedAccount : Type := {
  pubkey : PublicKey;
  account_data : Buffer
}.

Record Connection : Type := {
  getProgramAccounts : PublicKey -> list Filter -> result (list KeyedAccount)
}.

Record Coder : Type := {
  decode : string -> Buffer -> result PoolData
}.

(** ** PoolService *)

Section PoolService.

Variable connection : Connection.
Variable coder : Coder.

Definition decode_pool (native_base : bool) (pool : KeyedAccount) : result Pool :=
  let data := account_data pool in
  let* poolData := decode coder "pool" data in
  Ok {| address := pubkey pool;
        is_native_base := native_base;
        poolData := poolData |}.

Definition baseMintFilters (mintAddress : PublicKey) : list Filter :=
  [dataSize 211; memcmp 43 (toBase58 mintAddress)].

Definition quoteMintFilters (mintAddress : PublicKey) : list Filter :=
  [dataSize 211; memcmp 75 (toBase58 mintAddress)].

Definition baseMintQuoteWSOLFilters (mintAddress : PublicKey) : list Filter :=
  [dataSize 211; memcmp 43 (toBase58 mintAddress);
   memcmp 75 (toBase58 TOKEN_ADDRESSES.WSOL)].

(** Pools with the token as base. *)
Definition getPoolsWithBaseMint (mintAddress : PublicKey) : result (list Pool) :=
  let* response :=
    getProgramAccounts connection PROGRAM_IDS.PUMP_AMM (baseMintFilters mintAddress) in
  map_throwing (decode_pool false) response.

(** Pools with the token as quote. *)
Definition getPoolsWithQuoteMint (mintAddress : PublicKey) : result (list Pool) :=
  let* response :=
    getProgramAccounts connection PROGRAM_IDS.PUMP_AMM (quoteMintFilters mintAddress) in
  map_throwing (decode_pool true) response.

(** Pools with the token as base and WSOL as quote. *)
Definition getPoolsWithBaseMintQuoteWSOL (mintAddress : PublicKey)
  : result (list Pool) :=
  let* response :=
    getProgramAccounts connection PROGRAM_IDS.PUMP_AMM
      (baseMintQuoteWSOLFilters mintAddress) in
  map_throwing (decode_pool false) response.

(** Price and liquidity of one pool. *)
Definition getPriceAndLiquidity (pool : Pool) : result PoolWithPrice :=
  let baseReserve := baseReserve (poolData pool) in
  let quoteReserve := quoteReserve (poolData pool) in
  if negb (BN.truthy baseReserve) || negb (BN.truthy quoteReserve)
     || BN.strict_equal_bigint baseReserve 0
     || BN.strict_equal_bigint quoteReserve 0
  then Throw (Error "Invalid pool reserves")
  else
    let price := JS.div (BN.toNumber quoteReserve) (BN.toNumber baseReserve) in
    let reserves :=
      {| native := JS.div (BN.toNumber quoteReserve) LAMPORTS_PER_SOL;
         token := JS.div (BN.toNumber baseReserve) pow10_DECIMALS |} in
    Ok {| toPool := pool; price := price; reserves := reserves |}.

(** All pools with prices for a mint. *)
Definition getPoolsWithPrices (mintAddress : PublicKey)
  : result (list PoolWithPrice) :=
  let* lookups :=
    Promise_all [getPoolsWithBaseMint mintAddress;
                 getPoolsWithQuoteMint mintAddress;
                 getPoolsWithBaseMintQuoteWSOL mintAddress] in
  let basePools := nth 0 lookups [] in
  let quotePools := nth 1 lookups [] in
  let wsolPools := nth 2 lookups [] in
  let allPools := basePools ++ quotePools ++ wsolPools in
  let* poolsWithPrices := Promise_all (map getPriceAndLiquidity allPools) in
  Ok (filter (fun pool => JS.gt (price pool) JS.zero) poolsWithPrices).

(** The callback of the [reduce] in [getBestPool]. *)
Definition better (best current : PoolWithPrice) : PoolWithPrice :=
  if JS.gt (native (reserves current)) (native (reserves best))
  then current else best.

(** [pools.reduce(f)] without an initial value, on a non-empty array: the
    first element is the first accumulator. *)
Definition reduce {A : Type} (f : A -> A -> A) (first : A) (rest : list A) : A :=
  fold_left f rest first.

(** The best pool for trading (highest liquidity), [None] for [null]. *)
Definition getBestPool (mintAddress : PublicKey) : result (option PoolWithPrice) :=
  let* pools := getPoolsWithPrices mintAddress in
  match pools with
  | [] => Ok None
  | first :: rest => Ok (Some (reduce better first rest))
  end.

(** [bestPool?.price || null]. *)
Definition price_or_null (bestPool : option PoolWithPrice) : option JS.number :=
  match bestPool with
  | None => None
  | Some pool => if JS.truthy (price pool) then Some (price pool) else None
  end.

(** The current price for a token. *)
Definition getPrice (mintAddress : PublicKey) : result (option JS.number) :=
  let* bestPool := getBestPool mintAddress in
  Ok (price_or_null bestPool).

End PoolService.

(** ** PumpSwapSDK: the quoting helpers *)

Section PumpSwapSDK.

Variable connection : Connection.
Variable coder : Coder.

(** The argument is a bigint, as declared and as [buy] passes it; the
    reserves are the [BN] objects of the decoded account.  [*] on two [BN]s
    multiplies their numbers, [+] on a [BN] and a bigint joins their texts,
    [/] and [-] read the text and the [BN] as numbers: the value returned is
    a number although the signature says [Promise<bigint>]. *)
Definition calculateBuyTokenAmount (solAmount : Z) (mint : PublicKey)
  : result JS.number :=
  let* pool := getBestPool connection coder mint in
  match pool with
  | None => Throw (Error "No pool found")
  | Some pool =>
      let baseReserve := baseReserve (poolData pool) in
      let quoteReserve := quoteReserve (poolData pool) in
      let k := JS.mul (BN.toNumber baseReserve) (BN.toNumber quoteReserve) in
      let newQuoteReserve := BN.plus_bigint quoteReserve solAmount in
      let newBaseReserve := JS.div k (JS.StringToNumber newQuoteReserve) in
      Ok (JS.sub (BN.toNumber baseReserve) newBaseReserve)
  end.

Definition calculateSellSolAmount (tokenAmount : Z) (mint : PublicKey)
  : result JS.number :=
  let* pool := getBestPool connection coder mint in
  match pool with
  | None => Throw (Error "No pool found")
  | Some pool =>
      let baseReserve := baseReserve (poolData pool) in
      let quoteReserve := quoteReserve (poolData pool) in
      let k := JS.mul (BN.toNumber baseReserve) (BN.toNumber quoteReserve) in
      let newBaseReserve := BN.plus_bigint baseReserve tokenAmount in
      let newQuoteReserve := JS.div k (JS.StringToNumber newBaseReserve) in
      Ok (JS.sub (BN.toNumber quoteReserve) newQuoteReserve)
  end.

End PumpSwapSDK.

(** The divisor is the literal [10000n]: these two never throw. *)
Definition calculateWithSlippageBuy (amount basisPoints : Z) : Z :=
  Z.quot (amount * (10000 - basisPoints)) 10000.

Definition calculateWithSlippageSell (amount basisPoints : Z) : Z :=
  Z.quot (amount * (10000 - basisPoints)) 10000.

(** The same two helpers when [amount] is a number, as the quotes above are:
    [amount * (10000n - basisPoints)] is refused before anything is
    divided. *)
Definition calculateWithSlippageBuy_of_number (amount : JS.number)
    (basisPoints : Z) : result Z :=
  let* product := JS.mul_number_bigint amount (10000 - basisPoints) in
  JS.bigint_div product 10000.

Definition calculateWithSlippageSell_of_number (amount : JS.number)
    (basisPoints : Z) : result Z :=
  let* product := JS.mul_number_bigint amount (10000 - basisPoints) in
  JS.bigint_div product 10000.

(** The quotes as the specification states them, in exact integers with a
    truncating division. *)
Definition spec_buy_quote (baseReserve quoteReserve quoteAmountIn : Z) : Z :=
  baseReserve - baseReserve * quoteReserve / (quoteReserve + quoteAmountIn).

Definition spec_sell_quote (baseReserve quoteReserve baseAmountIn : Z) : Z :=
  quoteReserve - baseReserve * quoteReserve / (baseReserve + baseAmountIn).

(** ** Stand-ins for the collaborators

    A connection that answers the three lookups from three fixed outcomes, and
    a coder for a 16-byte layout (two little-endian 64-bit reserves, decoded
    to [BN] objects).  They are used to run the services on concrete
    inputs. *)

Module Example.

Definition byte_of (z : Z) : Byte.byte :=
  match Byte.of_N (Z.to_N (z mod 256)) with
  | Some b => b
  | None => Byte.x00
  end.

Fixpoint le_bytes (n : nat) (z : Z) : Buffer :=
  match n with
  | O => []
  | S n' => byte_of z :: le_bytes n' (z / 256)
  end.

Definition read_le (bs : Buffer) : Z :=
  fold_right (fun b acc => Z.of_N (Byte.to_N b) + 256 * acc) 0 bs.

Definition coder : Coder :=
  {| decode := fun name data =>
       if String.eqb name "pool" && Nat.eqb (List.length data) 16
       then Ok {| baseReserve := read_le (firstn 8 data);
                  quoteReserve := read_le (skipn 8 data) |}
       else Throw (DecodeError "Invalid account data") |}.

Definition account (key : PublicKey) (base quote : Z) : KeyedAccount :=
  {| pubkey := key; account_data := le_bytes 8 base ++ le_bytes 8 quote |}.

Definition rpc (base quote wsol : result (list KeyedAccount)) : Connection :=
  {| getProgramAccounts := fun _ filters =>
       match filters with
       | [dataSize 211; memcmp 43 _] => base
       | [dataSize 211; memcmp 75 _] => quote
       | [dataSize 211; memcmp 43 _; memcmp 75 _] => wsol
       | _ => Ok []
       end |}.

Definition mint : PublicKey := "7GCihgDB8fe6KNjn2MYtkzZcRjQy3t9GHdC8uHYmW2hr".

(** One pool with 500 tokens (6 decimals) against 50 SOL. *)
Definition one_pool : Connection :=
  rpc (Ok [account "PoolA" 500000000 50000000000]) (Ok []) (Ok []).

(** A pool holding a single raw unit of the token against 1000 lamports. *)
Definition thin_pool : Connection :=
  rpc (Ok [account "PoolT" 1 1000]) (Ok []) (Ok []).

(** Three pools with 5, 12 and 3 SOL on the native side. *)
Definition three_pools : Connection :=
  rpc (Ok [account "PoolA" 1000000 5000000000;
           account "PoolB" 1000000 12000000000;
           account "PoolC" 1000000 3000000000])
      (Ok []) (Ok []).

(** Two pools with the same native reserve behind a smaller one. *)
Definition tied_pools : Connection :=
  rpc (Ok [account "PoolA" 1000000 5000000000;
           account "PoolB" 1000000 12000000000])
      (Ok [account "PoolC" 2000000 12000000000])
      (Ok []).

(** A usable pool and one whose reserves are both 0. *)
Definition with_empty_pool : Connection :=
  rpc (Ok [account "PoolA" 500000000 50000000000; account "PoolZ" 0 0])
      (Ok []) (Ok []).

(** The same WSOL pool answers the first and the third lookup. *)
Definition listed_twice : Connection :=
  rpc (Ok [account "PoolA" 500000000 50000000000])
      (Ok [account "PoolQ" 7000000 3000000])
      (Ok [account "PoolA" 500000000 50000000000]).

Definition quote_lookup_fails : Connection :=
  rpc (Ok [account "PoolA" 500000000 50000000000])
      (Throw (RpcError "429 Too Many Requests"))
      (Ok []).

Definition nothing_listed : Connection := rpc (Ok []) (Ok []) (Ok []).

(** A usable pool and one with no base reserve against 1000 lamports. *)
Definition with_zero_base_pool : Connection :=
  rpc (Ok [account "PoolA" 500000000 50000000000; account "PoolI" 0 1000])
      (Ok []) (Ok []).

(** A usable pool and one with 1000 raw units against no quote reserve. *)
Definition with_zero_quote_pool : Connection :=
  rpc (Ok [account "PoolA" 500000000 50000000000; account "PoolO" 1000 0])
      (Ok []) (Ok []).

(** A pool of 21 raw units against 4 lamports. *)
Definition tiny_pool : Connection :=
  rpc (Ok [account "PoolS" 21 4]) (Ok []) (Ok []).

(** One token (6 decimals) against one SOL. *)
Definition unit_pool : Pool :=
  {| address := "PoolU";
     is_native_base := false;
     poolData := {| baseReserve := 1000000; quoteReserve := 1000000000 |} |}.

End Example.

(** ** Predicates on pools *)

(** Both reserves are positive unsigned 64-bit amounts. *)
Definition u64_reserves (pool : Pool) : Prop :=
  0 < baseReserve (poolData pool) < 2 ^ 64
  /\ 0 < quoteReserve (poolData pool) < 2 ^ 64.

(** The predicate of the [filter] in [getPoolsWithPrices]. *)
Definition positive_price (pool : PoolWithPrice) : bool :=
  JS.gt (price pool) JS.zero.

Definition native_of (p : PoolWithPrice) : JS.number := native (reserves p).

(** ** A lexicographic key for the order of doubles

    Binary64 values other than NaN are ordered by sign class, then exponent,
    then mantissa; [key] makes that order a lexicographic one on integers. *)

Definition key (x : spec_float) : Z * (Z * Z) :=
  match x with
  | S754_zero _ | S754_nan => (0, (0, 0))
  | S754_infinity false => (2, (0, 0))
  | S754_infinity true => (-2, (0, 0))
  | S754_finite false m e => (1, (e, Zpos m))
  | S754_finite true m e => (-1, (- e, - Zpos m))
  end.

Definition key_lt (a b : Z * (Z * Z)) : Prop :=
  fst a < fst b
  \/ (fst a = fst b
      /\ (fst (snd a) < fst (snd b)
          \/ (fst (snd a) = fst (snd b) /\ snd (snd a) < snd (snd b)))).

(** ** Hexadecimal text and buffers

    [bigint.toString(16)], [String.prototype.padStart] with a one-character
    filler, [Buffer.from(text, 'hex')] and [Buffer.concat], as
    [createBuyInstruction] and [createSellInstruction] use them. *)

From Stdlib Require Import Ascii.

Module Hex.

Definition is_digit (d : Z) : Prop := 0 <= d < 16.

(** The digit characters of [toString(16)]. *)
Definition digit_char (d : Z) : ascii :=
  nth (Z.to_nat d) (list_ascii_of_string "0123456789abcdef") "0"%char.

(** The hexadecimal digits of [n >= 0], most significant first, in front of
    [acc]; [fuel] bounds the number of digits produced. *)
Fixpoint digits (fuel : nat) (n : Z) (acc : list Z) : list Z :=
  match fuel with
  | O => acc
  | S fuel' =>
      let acc' := (n mod 16) :: acc in
      if n / 16 =? 0 then acc' else digits fuel' (n / 16) acc'
  end.

Definition digits_of (n : Z) : list Z := digits (S (Z.to_nat (Z.log2 n))) n [].

Definition text (ds : list Z) : string :=
  string_of_list_ascii (map digit_char ds).

(** [a.toString(16)]: lower-case digits, no leading zero, [-] for a negative
    number. *)
Definition toString16 (a : Z) : string :=
  if a <? 0 then String "-" (text (digits_of (- a))) else text (digits_of a).

(** [s.padStart(targetLength, c)] for a filler [c] of one character. *)
Definition padStart (s : string) (targetLength : nat) (c : ascii) : string :=
  string_of_list_ascii (repeat c (targetLength - String.length s)) ++ s.

(** The value of a hexadecimal digit character, either case. *)
Definition unhex (c : ascii) : option Z :=
  let n := Z.of_N (N_of_ascii c) in
  if (48 <=? n) && (n <=? 57) then Some (n - 48)
  else if (97 <=? n) && (n <=? 102) then Some (n - 87)
  else if (65 <=? n) && (n <=? 70) then Some (n - 55)
  else None.

Definition byte (z : Z) : Byte.byte :=
  match Byte.of_N (Z.to_N (z mod 256)) with
  | Some b => b
  | None => Byte.x00
  end.

(** [Buffer.from(s, 'hex')]: one byte for each pair of digits; decoding stops
    at the first pair that is not two hexadecimal digits, and a last
    character without a partner is ignored. *)
Fixpoint Buffer_from (s : string) : Buffer :=
  match s with
  | String c1 (String c2 rest) =>
      match unhex c1, unhex c2 with
      | Some h, Some l => byte (16 * h + l) :: Buffer_from rest
      | _, _ => []
      end
  | _ => []
  end.

Definition Buffer_concat (parts : list Buffer) : Buffer := List.concat parts.

(** The number that a buffer holds when it is read as a big-endian unsigned
    integer. *)
Fixpoint big_endian (bs : Buffer) : Z :=
  match bs with
  | [] => 0
  | b :: rest => Z.of_N (Byte.to_N b) * 256 ^ Z.of_nat (List.length rest) + big_endian rest
  end.

(** The number that a list of hexadecimal digits denotes. *)
Fixpoint value (ds : list Z) : Z :=
  match ds with
  | [] => 0
  | d :: rest => d * 16 ^ Z.of_nat (List.length rest) + value rest
  end.

End Hex.

(** ** Instructions (createBuyInstruction, createSellInstruction) *)

Module PUMPSWAP_ADDRESSES.
Definition GLOBAL : PublicKey := "ADyA8hdefvWN2dbGGWFotbzWxrAvLW83WG6QCVXvJKqw".
Definition EVENT_AUTHORITY : PublicKey := "GS4CU59F31iL7aR2Q8zVS8DRrcRnXX1yjQ66TqNVQnaR".
Definition FEE_RECIPIENT : PublicKey := "62qc2CNXwrYqQScmEdiZFFAnJR262PxWEuNQtxfafNgV".
Definition FEE_RECIPIENT_ATA : PublicKey := "94qWNrtmfn42h3ZjUZwWvK1MEo9uVmmrBPd2hpNjYDjb".
End PUMPSWAP_ADDRESSES.

(** The other program ids of [PROGRAM_IDS], and [SystemProgram.programId]. *)
Module Programs.
Definition ASSOCIATED_TOKEN : PublicKey := "ATokenGPvbdGVxr1b2hvZbsiqW5xWH25efTNsLJA8knL".
Definition TOKEN : PublicKey := "TokenkegQfeZyiNwAJbNbGKPFXCWuBvf9Ss623VQ5DA".
Definition SYSTEM : PublicKey := "11111111111111111111111111111111".
End Programs.

Module INSTRUCTION_DISCRIMINATORS.
Definition BUY : Buffer := map Hex.byte [102; 6; 61; 18; 1; 218; 235; 234].
Definition SELL : Buffer := map Hex.byte [51; 230; 133; 164; 1; 127; 131; 173].
End INSTRUCTION_DISCRIMINATORS.

Record AccountMeta : Type := {
  meta_pubkey : PublicKey;
  isSigner : bool;
  isWritable : bool
}.

Record TransactionInstruction : Type := {
  keys : list AccountMeta;
  programId : PublicKey;
  data : Buffer
}.

(** [Buffer.from(amount.toString(16).padStart(16, '0'), 'hex')]. *)
Definition amount_field (amount : Z) : Buffer :=
  Hex.Buffer_from (Hex.padStart (Hex.toString16 amount) 16 "0"%char).

Section Instructions.

(** [getAssociatedTokenAddressSync(mint, owner)] of @solana/spl-token; it
    throws when the owner is not on the curve. *)
Variable getAssociatedTokenAddressSync : PublicKey -> PublicKey -> result PublicKey.

Definition swap_keys (poolId user ata : PublicKey) : list AccountMeta :=
  [ {| meta_pubkey := poolId; isSigner := false; isWritable := true |};
    {| meta_pubkey := user; isSigner := false; isWritable := false |};
    {| meta_pubkey := ata; isSigner := false; isWritable := true |};
    {| meta_pubkey := PUMPSWAP_ADDRESSES.GLOBAL; isSigner := false; isWritable := false |};
    {| meta_pubkey := PUMPSWAP_ADDRESSES.EVENT_AUTHORITY; isSigner := false;
       isWritable := false |};
    {| meta_pubkey := PUMPSWAP_ADDRESSES.FEE_RECIPIENT; isSigner := false;
       isWritable := true |};
    {| meta_pubkey := PUMPSWAP_ADDRESSES.FEE_RECIPIENT_ATA; isSigner := false;
       isWritable := true |};
    {| meta_pubkey := Programs.TOKEN; isSigner := false; isWritable := false |};
    {| meta_pubkey := Programs.ASSOCIATED_TOKEN; isSigner := false; isWritable := false |};
    {| meta_pubkey := Programs.SYSTEM; isSigner := false; isWritable := false |} ].

Definition createBuyInstruction (poolId user mint : PublicKey)
    (baseAmountOut maxQuoteAmountIn : Z) : result TransactionInstruction :=
  let* ata := getAssociatedTokenAddressSync mint user in
  Ok {| keys := swap_keys poolId user ata;
        programId := PROGRAM_IDS.PUMP_AMM;
        data := Hex.Buffer_concat
                  [INSTRUCTION_DISCRIMINATORS.BUY;
                   amount_field baseAmountOut;
                   amount_field maxQuoteAmountIn] |}.

Definition createSellInstruction (poolId user mint : PublicKey)
    (baseAmountIn minQuoteAmountOut : Z) : result TransactionInstruction :=
  let* ata := getAssociatedTokenAddressSync mint user in
  Ok {| keys := swap_keys poolId user ata;
        programId := PROGRAM_IDS.PUMP_AMM;
        data := Hex.Buffer_concat
                  [INSTRUCTION_DISCRIMINATORS.SELL;
                   amount_field baseAmountIn;
                   amount_field minQuoteAmountOut] |}.

End Instructions.

(** ** Trading (PumpSwapSDK.buy, sellExactAmount, sellPercentage;
       TransactionService.sendTransaction; TokenService.getTokenBalance) *)

(** The other entries of [DEFAULTS]. *)
Module TRADE_DEFAULTS.
Definition SLIPPAGE : Z := 500.
Definition COMPUTE_UNITS : Z := 70000.
Definition COMPUTE_UNIT_PRICE : Z := 696969.
End TRADE_DEFAULTS.

(** [error instanceof Error ? error.message : 'Unknown error']: every
    exception of this model is an [Error] object. *)
Definition message_of (e : error) : string :=
  match e with
  | Error m | RangeError m | TypeError m | RpcError m | DecodeError m => m
  end.

Module TransactionResult.
Record t : Type := {
  success : bool;
  signature : option string;
  error : option string
}.
End TransactionResult.

(** [{ success: true, signature }] and [{ success: false, error }]. *)
Definition succeeded (signature : string) : TransactionResult.t :=
  {| TransactionResult.success := true;
     TransactionResult.signature := Some signature;
     TransactionResult.error := None |}.

Definition failed (e : error) : TransactionResult.t :=
  {| TransactionResult.success := false;
     TransactionResult.signature := None;
     TransactionResult.error := Some (message_of e) |}.

(** The instructions that the SDK puts in a transaction. *)
Inductive Instruction : Type :=
| setComputeUnitLimit (units : Z)
| setComputeUnitPrice (microLamports : Z)
| createAssociatedTokenAccountIdempotentInstruction
    (payer associatedToken owner mint : PublicKey)
| swapInstruction (instruction : TransactionInstruction).

(** The arguments of [new TransactionMessage({...})]. *)
Record TransactionMessage : Type := {
  payerKey : PublicKey;
  recentBlockhash : string;
  instructions : list Instruction
}.

(** A compiled message with the keys that signed it. *)
Record VersionedTransaction : Type := {
  message : TransactionMessage;
  signers : list PublicKey
}.

Record BuyParams : Type := {
  buy_mint : PublicKey;
  buy_user : PublicKey;
  solAmount : JS.number;
  buy_slippage : option JS.number
}.

Record SellParams : Type := {
  sell_mint : PublicKey;
  sell_user : PublicKey;
  percentage : option JS.number;
  exactAmount : option JS.number;
  sell_slippage : option JS.number
}.

(** [x * y] on numbers. *)
Definition number_mul (x y : JS.number) : JS.number := JS.mul x y.

(** [x === 0] on a number: true for [0] and [-0], false for NaN. *)
Definition number_is_zero (x : JS.number) : bool := SFeqb x JS.zero.

(** [x || 0] for a number or [null]. *)
Definition number_or_zero (x : option JS.number) : JS.number :=
  match x with
  | Some v => if JS.truthy v then v else JS.zero
  | None => JS.zero
  end.

(** [!x] for an optional number: [undefined], [0], [-0] and NaN are falsy. *)
Definition number_missing (x : option JS.number) : bool :=
  match x with
  | Some v => negb (JS.truthy v)
  | None => true
  end.

Section Trading.

(** The node as the first discovery of [buy] and [sellExactAmount] finds it,
    and as the discovery inside the quoting helper finds it afterwards:
    nothing makes the node answer the second time as it did the first. *)
Variable connection : Connection.
Variable connection_at_quote : Connection.
Variable coder : Coder.

(** [getAssociatedTokenAddressSync] of @solana/spl-token and the global
    [wallet] of connection/index.ts (its public key). *)
Variable getAssociatedTokenAddressSync : PublicKey -> PublicKey -> result PublicKey.
Variable wallet : PublicKey.

(** The RPC requests of the connection that trading uses, and the compilation
    of a message by @solana/web3.js, which either throws or accepts it. *)
Variable getLatestBlockhash : result string.
Variable compileToV0Message : TransactionMessage -> result unit.
Variable rpc_sendTransaction : VersionedTransaction -> result string.
Variable getTokenAccountBalance : PublicKey -> result (option JS.number).

(** The text of a number in the message of the [RangeError] of [BigInt]. *)
Variable number_toString : JS.number -> string.

(** [BigInt(x)] for a number: the integer that [x] is, a [RangeError] when
    [x] is not an integer (a fraction, an infinity or NaN). *)
Definition BigInt (x : JS.number) : result Z :=
  let not_an_integer :=
    Throw (RangeError ("The number " ++ number_toString x
                       ++ " cannot be converted to a BigInt because it is not an integer"))
  in
  match x with
  | S754_zero _ => Ok 0
  | S754_finite s m e =>
      if 0 <=? e then Ok (cond_Zopp s (Zpos m * 2 ^ e))
      else if Zpos m mod 2 ^ (- e) =? 0
           then Ok (cond_Zopp s (Zpos m / 2 ^ (- e)))
           else not_an_integer
  | S754_infinity _ | S754_nan => not_an_integer
  end.

(** TransactionService.sendTransaction: the result, and the transactions that
    were handed to the RPC node. *)
Definition sendTransaction (instrs : list Instruction) (signer : PublicKey)
  : TransactionResult.t * list VersionedTransaction :=
  match getLatestBlockhash with
  | Throw e => (failed e, [])
  | Ok blockhash =>
      let messageV0 :=
        {| payerKey := signer; recentBlockhash := blockhash; instructions := instrs |} in
      match compileToV0Message messageV0 with
      | Throw e => (failed e, [])
      | Ok _ =>
          let transaction := {| message := messageV0; signers := [signer] |} in
          match rpc_sendTransaction transaction with
          | Throw e => (failed e, [transaction])
          | Ok signature => (succeeded signature, [transaction])
          end
      end
  end.

(** TokenService.getTokenBalance: every failure is answered with 0. *)
Definition getTokenBalance (mintAddress pubKey : PublicKey) : JS.number :=
  match getAssociatedTokenAddressSync mintAddress pubKey with
  | Throw _ => JS.zero
  | Ok ata =>
      match getTokenAccountBalance ata with
      | Throw _ => JS.zero
      | Ok uiAmount => number_or_zero uiAmount
      end
  end.

Definition slippage_or_default (slippage : option JS.number) : JS.number :=
  match slippage with
  | Some s => s
  | None => JS.Number TRADE_DEFAULTS.SLIPPAGE
  end.

Definition compute_budget : list Instruction :=
  [setComputeUnitLimit TRADE_DEFAULTS.COMPUTE_UNITS;
   setComputeUnitPrice TRADE_DEFAULTS.COMPUTE_UNIT_PRICE].

(** The part of [buy] before the transaction is sent. *)
Definition buy_instructions (params : BuyParams) : result (list Instruction) :=
  let mint := buy_mint params in
  let user := buy_user params in
  let slippage := slippage_or_default (buy_slippage params) in
  let* pool := getBestPool connection coder mint in
  match pool with
  | None => Throw (Error ("No pool found for token " ++ toBase58 mint))
  | Some pool =>
      let* lamports := BigInt (number_mul (solAmount params) LAMPORTS_PER_SOL) in
      let* boughtTokenAmount :=
        calculateBuyTokenAmount connection_at_quote coder lamports mint in
      let* basisPoints := BigInt slippage in
      let* amountAfterSlippage :=
        calculateWithSlippageBuy_of_number boughtTokenAmount basisPoints in
      let* maxQuoteAmountIn := BigInt (number_mul (solAmount params) LAMPORTS_PER_SOL) in
      let* buyInstruction :=
        createBuyInstruction getAssociatedTokenAddressSync (address pool) user mint
          amountAfterSlippage maxQuoteAmountIn in
      let* ata := getAssociatedTokenAddressSync mint user in
      let createAtaInstruction :=
        createAssociatedTokenAccountIdempotentInstruction wallet ata wallet mint in
      Ok (compute_budget ++ [createAtaInstruction; swapInstruction buyInstruction])
  end.

(** Buy tokens with SOL. *)
Definition buy (params : BuyParams) : TransactionResult.t * list VersionedTransaction :=
  match buy_instructions params with
  | Throw e => (failed e, [])
  | Ok instrs => sendTransaction instrs wallet
  end.

(** The part of [sellExactAmount] before the transaction is sent. *)
Definition sell_instructions (params : SellParams) : result (list Instruction) :=
  let mint := sell_mint params in
  let user := sell_user params in
  let slippage := slippage_or_default (sell_slippage params) in
  if number_missing (exactAmount params)
  then Throw (Error "Exact amount is required for sellExactAmount")
  else
    let exactAmount := match exactAmount params with Some v => v | None => JS.zero end in
    let* pool := getBestPool connection coder mint in
    match pool with
    | None => Throw (Error ("No pool found for token " ++ toBase58 mint))
    | Some pool =>
        let* tokens := BigInt (number_mul exactAmount pow10_DECIMALS) in
        let* minSolAmount :=
          calculateSellSolAmount connection_at_quote coder tokens mint in
        let* basisPoints := BigInt slippage in
        let* minSolAfterSlippage :=
          calculateWithSlippageSell_of_number minSolAmount basisPoints in
        let* baseAmountIn := BigInt (number_mul exactAmount pow10_DECIMALS) in
        let* sellInstruction :=
          createSellInstruction getAssociatedTokenAddressSync (address pool) user mint
            baseAmountIn minSolAfterSlippage in
        Ok (compute_budget ++ [swapInstruction sellInstruction])
    end.

(** Sell exact amount of tokens. *)
Definition sellExactAmount (params : SellParams)
  : TransactionResult.t * list VersionedTransaction :=
  match sell_instructions params with
  | Throw e => (failed e, [])
  | Ok instrs => sendTransaction instrs wallet
  end.

(** Sell percentage of tokens. *)
Definition sellPercentage (params : SellParams)
  : TransactionResult.t * list VersionedTransaction :=
  let mint := sell_mint params in
  let user := sell_user params in
  let percentage :=
    match percentage params with Some p => p | None => JS.Number 100 end in
  let slippage := slippage_or_default (sell_slippage params) in
  if JS.le percentage JS.zero || JS.gt percentage (JS.Number 100)
  then (failed (Error "Percentage must be between 0 and 100"), [])
  else
    let tokenBalance := getTokenBalance mint user in
    if number_is_zero tokenBalance
    then (failed (Error "No tokens to sell"), [])
    else
      let amountToSell :=
        JS.div (number_mul tokenBalance percentage) (JS.Number 100) in
      sellExactAmount
        {| sell_mint := mint;
           sell_user := user;
           percentage := None;
           exactAmount := Some amountToSell;
           sell_slippage := Some slippage |}.

End Trading.

(** ** PoolService.getPoolInfo *)

(** A decoded pool account with the two mint fields, which only
    [getPoolInfo] reads. *)
Record DecodedPool : Type := {
  decoded_baseMint : PublicKey;
  decoded_quoteMint : PublicKey;
  decoded_reserves : PoolData
}.

Module PoolInfo.
Record t : Type := {
  poolId : PublicKey;
  baseMint : PublicKey;
  quoteMint : PublicKey;
  baseReserve : BN.t;
  quoteReserve : BN.t;
  price : JS.number
}.
End PoolInfo.

Section PoolInfoService.

(** [connection.getAccountInfo] ([None] for [null]) and the account coder. *)
Variable getAccountInfo : PublicKey -> result (option Buffer).
Variable decode_account : string -> Buffer -> result DecodedPool.

Definition getPoolInfo (poolAddress : PublicKey) : result (option PoolInfo.t) :=
  let* accountInfo := getAccountInfo poolAddress in
  match accountInfo with
  | None => Ok None
  | Some account_bytes =>
      let* poolData := decode_account "pool" account_bytes in
      Ok (Some
            {| PoolInfo.poolId := poolAddress;
               PoolInfo.baseMint := decoded_baseMint poolData;
               PoolInfo.quoteMint := decoded_quoteMint poolData;
               PoolInfo.baseReserve := baseReserve (decoded_reserves poolData);
               PoolInfo.quoteReserve := quoteReserve (decoded_reserves poolData);
               PoolInfo.price :=
                 JS.div (BN.toNumber (quoteReserve (decoded_reserves poolData)))
                        (BN.toNumber (baseReserve (decoded_reserves poolData))) |})
  end.

End PoolInfoService.

(** ** Environment variables (utils/env.ts) *)

Section Env.

(** [process.env]: [None] for a variable that is not defined. *)
Variable env : string -> option string.

(** [!process.env[name]]: not defined, or defined as the empty string. *)
Definition env_unset (name : string) : bool :=
  match env name with
  | Some v => String.eqb v ""
  | None => true
  end.

Definition retrieveEnvVariable (variableName : string) : result string :=
  match env variableName with
  | Some variable =>
      if String.eqb variable ""
      then Throw (Error (variableName ++ " is not set in environment variables"))
      else Ok variable
  | None => Throw (Error (variableName ++ " is not set in environment variables"))
  end.

Definition retrieveEnvVariableWithDefault (variableName defaultValue : string)
  : string :=
  match env variableName with
  | Some variable => if String.eqb variable "" then defaultValue else variable
  | None => defaultValue
  end.

Definition validateRequiredEnvVariables (requiredVariables : list string)
  : result unit :=
  let missingVariables := filter env_unset requiredVariables in
  if (0 <? List.length missingVariables)%nat
  then Throw (Error ("Missing required environment variables: "
                     ++ String.concat ", " missingVariables))
  else Ok tt.

(** [parseInt(value, 10)] is the engine's. *)
Variable parseInt : string -> JS.number.

Definition isNaN (x : JS.number) : bool :=
  match x with
  | S754_nan => true
  | _ => false
  end.

Definition retrieveNumericEnvVariable (variableName : string)
    (defaultValue : JS.number) : JS.number :=
  match env variableName with
  | Some value =>
      if String.eqb value "" then defaultValue
      else
        let numericValue := parseInt value in
        if isNaN numericValue then defaultValue else numericValue
  | None => defaultValue
  end.

End Env.

(** ** Stand-ins for the collaborators of trading *)

Module Demo.

Definition getAssociatedTokenAddressSync (mint owner : PublicKey) : result PublicKey :=
  Ok ("Ata-" ++ owner)%string.

Definition wallet : PublicKey := "Wallet".

Definition compileToV0Message (_ : TransactionMessage) : result unit := Ok tt.

Definition rpc_sendTransaction (_ : VersionedTransaction) : result string :=
  Ok "Signature-1".

Definition getTokenAccountBalance (_ : PublicKey) : result (option JS.number) :=
  Ok (Some (JS.Number 12)).

Definition balance_unavailable (_ : PublicKey) : result (option JS.number) :=
  Throw (RpcError "could not find account").

Definition number_toString (_ : JS.number) : string := "67000000.00000001".

(** The double nearest to 0.067: times 1e9 it is 67000000.00000001. *)
Definition sol_0_067 : JS.number := S754_finite false 4827858800541172 (-56).

Definition buy_one_sol : BuyParams :=
  {| buy_mint := Example.mint; buy_user := "User";
     solAmount := JS.Number 1; buy_slippage := None |}.

Definition buy_fraction : BuyParams :=
  {| buy_mint := Example.mint; buy_user := "User";
     solAmount := sol_0_067; buy_slippage := None |}.

Definition sell_two_tokens : SellParams :=
  {| sell_mint := Example.mint; sell_user := "User"; percentage := None;
     exactAmount := Some (JS.Number 2); sell_slippage := Some (JS.Number 300) |}.

Definition sell_half : SellParams :=
  {| sell_mint := Example.mint; sell_user := "User";
     percentage := Some (JS.Number 50);
     exactAmount := None; sell_slippage := None |}.

Definition sell_nan : SellParams :=
  {| sell_mint := Example.mint; sell_user := "User";
     percentage := Some S754_nan;
     exactAmount := None; sell_slippage := None |}.

Definition process_env (name : string) : option string :=
  if String.eqb name "RPC_ENDPOINT" then Some "https://rpc.example"
  else if String.eqb name "LOG_LEVEL" then Some ""
  else None.

End Demo.

(** * Properties *)

(** ** Binary64 arithmetic *)

Lemma digits2_pos_bounds (m : positive) :
  2 ^ (Zpos (digits2_pos m) - 1) <= Zpos m < 2 ^ Zpos (digits2_pos m).
Proof.
  induction m as [m IH | m IH |]; cbn [digits2_pos].
  - rewrite Pos2Z.inj_succ, Pos2Z.inj_xI.
    replace (Z.succ (Zpos (digits2_pos m)) - 1)
      with (Z.succ (Zpos (digits2_pos m) - 1)) by lia.
    rewrite !Z.pow_succ_r by lia.
    revert IH. generalize (2 ^ (Zpos (digits2_pos m) - 1)).
    generalize (2 ^ Zpos (digits2_pos m)). lia.
  - rewrite Pos2Z.inj_succ. change (Zpos m~0) with (2 * Zpos m).
    replace (Z.succ (Zpos (digits2_pos m)) - 1)
      with (Z.succ (Zpos (digits2_pos m) - 1)) by lia.
    rewrite !Z.pow_succ_r by lia.
    revert IH. generalize (2 ^ (Zpos (digits2_pos m) - 1)).
    generalize (2 ^ Zpos (digits2_pos m)). lia.
  - cbn. lia.
Qed.

Lemma digits2_pos_unique (m : positive) (d : Z) :
  2 ^ (d - 1) <= Zpos m < 2 ^ d -> Zpos (digits2_pos m) = d.
Proof.
  intros [Hlo Hhi].
  destruct (digits2_pos_bounds m) as [Blo Bhi].
  assert (Hd : 0 < d).
  { destruct (Z.lt_trichotomy d 0) as [N | [N | N]]; auto.
    - rewrite Z.pow_neg_r in Hhi by lia. lia.
    - subst d. cbn in Hhi. lia. }
  destruct (Z.lt_trichotomy (Zpos (digits2_pos m)) d) as [L | [E | G]]; auto.
  - assert (2 ^ Zpos (digits2_pos m) <= 2 ^ (d - 1))
      by (apply Z.pow_le_mono_r; lia). lia.
  - assert (2 ^ d <= 2 ^ (Zpos (digits2_pos m) - 1))
      by (apply Z.pow_le_mono_r; lia). lia.
Qed.

Lemma shr_1_m (r : shr_record) :
  0 <= shr_m r -> shr_m (shr_1 r) = shr_m r / 2.
Proof.
  destruct r as [m b s]. cbn [shr_m]. intros Hm.
  destruct m as [| [p | p |] | p]; cbn [shr_1 shr_m]; try lia.
  - reflexivity.
  - apply Z.div_unique with 1; lia.
  - apply Z.div_unique with 0; lia.
  - reflexivity.
Qed.

Lemma iter_shr_1_m (p : positive) (r : shr_record) :
  0 <= shr_m r -> shr_m (iter_pos shr_1 p r) = shr_m r / 2 ^ Zpos p.
Proof.
  revert r. induction p as [p IH | p IH |]; intros r Hr; cbn [iter_pos].
  - assert (Hp : 0 < 2 ^ Zpos p) by (apply Z.pow_pos_nonneg; lia).
    assert (H1 : 0 <= shr_m (shr_1 r)).
    { rewrite shr_1_m by auto. apply Z.div_pos; lia. }
    assert (H2 : 0 <= shr_m (iter_pos shr_1 p (shr_1 r))).
    { rewrite IH by auto. apply Z.div_pos; lia. }
    rewrite IH, IH, shr_1_m by auto.
    rewrite !Z.div_div by lia.
    replace (Zpos p~1) with (1 + Zpos p + Zpos p) by lia.
    rewrite !Z.pow_add_r, Z.pow_1_r by lia. f_equal. ring.
  - assert (Hp : 0 < 2 ^ Zpos p) by (apply Z.pow_pos_nonneg; lia).
    assert (H2 : 0 <= shr_m (iter_pos shr_1 p r)).
    { rewrite IH by auto. apply Z.div_pos; lia. }
    rewrite IH, IH by auto.
    rewrite !Z.div_div by lia.
    replace (Zpos p~0) with (Zpos p + Zpos p) by lia.
    rewrite !Z.pow_add_r by lia. reflexivity.
  - rewrite shr_1_m by auto. reflexivity.
Qed.

Lemma shr_record_of_loc_m (m : Z) (l : location) :
  shr_m (shr_record_of_loc m l) = m.
Proof. destruct l as [| []]; reflexivity. Qed.

Lemma round_nearest_even_bounds (m : Z) (l : location) :
  m <= round_nearest_even m l <= m + 1.
Proof.
  destruct l as [| []]; cbn [round_nearest_even]; try lia.
  destruct (Z.even m); lia.
Qed.

Lemma fexp_normal (e : Z) : -1074 <= e - 53 -> fexp JS.prec JS.emax e = e - 53.
Proof. unfold fexp, emin, JS.prec, JS.emax. lia. Qed.

Lemma shr_fexp_normal (m : positive) (e : Z) (l : location) :
  53 <= Zpos (digits2_pos m) ->
  -1074 <= Zpos (digits2_pos m) + e - 53 ->
  exists r : shr_record,
    shr_fexp JS.prec JS.emax (Zpos m) e l = (r, Zpos (digits2_pos m) + e - 53)
    /\ 2 ^ 52 <= shr_m r < 2 ^ 53.
Proof.
  intros Hd He.
  destruct (digits2_pos_bounds m) as [Blo Bhi].
  unfold shr_fexp. cbn [Zdigits2].
  rewrite fexp_normal by lia.
  replace (Zpos (digits2_pos m) + e - 53 - e) with (Zpos (digits2_pos m) - 53) by lia.
  destruct (Zpos (digits2_pos m) - 53) as [| p | p] eqn:Ed; [| | lia].
  - cbn [shr]. eexists. split.
    + f_equal. lia.
    + rewrite shr_record_of_loc_m.
      replace (Zpos (digits2_pos m)) with 53 in * by lia.
      exact (conj Blo Bhi).
  - cbn [shr]. eexists. split.
    + f_equal. lia.
    + rewrite iter_shr_1_m by (rewrite shr_record_of_loc_m; lia).
      rewrite shr_record_of_loc_m.
      assert (Hp : 0 < 2 ^ Zpos p) by (apply Z.pow_pos_nonneg; lia).
      replace (Zpos (digits2_pos m)) with (Zpos p + 53) in * by lia.
      replace (Zpos p + 53 - 1) with (Zpos p + 52) in Blo by lia.
      rewrite Z.pow_add_r in Blo, Bhi by lia.
      split.
      * apply Z.div_le_lower_bound; lia.
      * apply Z.div_lt_upper_bound; lia.
Qed.

Lemma binary_round_aux_normal (sx : bool) (m : positive) (e : Z) (l : location) :
  53 <= Zpos (digits2_pos m) ->
  -1074 <= Zpos (digits2_pos m) + e - 53 ->
  Zpos (digits2_pos m) + e - 52 <= 971 ->
  exists (m' : positive) (e' : Z),
    binary_round_aux JS.prec JS.emax sx (Zpos m) e l = S754_finite sx m' e'
    /\ Zpos (digits2_pos m') = 53
    /\ Zpos (digits2_pos m) + e - 53 <= e' <= Zpos (digits2_pos m) + e - 52.
Proof.
  intros Hd Hlo Hhi.
  destruct (shr_fexp_normal m e l Hd Hlo) as (r1 & E1 & B1).
  unfold binary_round_aux. rewrite E1.
  set (e1 := Zpos (digits2_pos m) + e - 53) in *.
  pose proof (round_nearest_even_bounds (shr_m r1) (loc_of_shr_record r1)) as R.
  destruct (round_nearest_even (shr_m r1) (loc_of_shr_record r1))
    as [| m2 | m2] eqn:E2; [lia | | lia].
  assert (D2 : Zpos (digits2_pos m2) = 53 \/ Zpos (digits2_pos m2) = 54).
  { destruct (Z.eq_dec (Zpos m2) (2 ^ 53)) as [T | T].
    - right. apply digits2_pos_unique. rewrite T. cbn. lia.
    - left. apply digits2_pos_unique. change (2 ^ (53 - 1)) with (2 ^ 52). lia. }
  destruct (shr_fexp_normal m2 e1 loc_Exact) as (r3 & E3 & B3); [lia | lia |].
  rewrite E3.
  destruct (shr_m r3) as [| m3 | m3] eqn:E4; [lia | | lia].
  assert (L : (Zpos (digits2_pos m2) + e1 - 53 <=? JS.emax - JS.prec) = true).
  { apply Z.leb_le. unfold JS.emax, JS.prec. lia. }
  rewrite L. exists m3, (Zpos (digits2_pos m2) + e1 - 53).
  split; [reflexivity |].
  split; [apply digits2_pos_unique; change (2 ^ (53 - 1)) with (2 ^ 52); lia | lia].
Qed.

Lemma iter_xO_value (p k : positive) :
  Zpos (Pos.iter xO p k) = Zpos p * 2 ^ Zpos k.
Proof.
  induction k as [| k IH] using Pos.peano_ind.
  - cbn [Pos.iter]. rewrite Z.pow_1_r. lia.
  - rewrite Pos.iter_succ, Pos2Z.inj_succ, Z.pow_succ_r by lia.
    change (Zpos (Pos.iter xO p k)~0) with (2 * Zpos (Pos.iter xO p k)).
    rewrite IH. ring.
Qed.

Lemma binary_round_normal (sx : bool) (p : positive) :
  Zpos (digits2_pos p) <= 1023 ->
  exists (m : positive) (e : Z),
    binary_round JS.prec JS.emax sx p 0 = S754_finite sx m e
    /\ Zpos (digits2_pos m) = 53
    /\ Zpos (digits2_pos p) - 53 <= e <= Zpos (digits2_pos p) - 52.
Proof.
  intros Hd.
  destruct (digits2_pos_bounds p) as [Blo Bhi].
  unfold binary_round, shl_align.
  rewrite fexp_normal by lia.
  destruct (Zpos (digits2_pos p) + 0 - 53 - 0) as [| k | k] eqn:Ek.
  - destruct (binary_round_aux_normal sx p 0 loc_Exact) as (m & e & E & D & B);
      [lia | lia | lia |].
    exists m, e. repeat split; auto; lia.
  - destruct (binary_round_aux_normal sx p 0 loc_Exact) as (m & e & E & D & B);
      [lia | lia | lia |].
    exists m, e. repeat split; auto; lia.
  - assert (Dz : Zpos (digits2_pos (Pos.iter xO p k)) = 53).
    { apply digits2_pos_unique. rewrite iter_xO_value.
      assert (Hk : 0 < 2 ^ Zpos k) by (apply Z.pow_pos_nonneg; lia).
      assert (E1 : 2 ^ (53 - 1) = 2 ^ (Zpos (digits2_pos p) - 1) * 2 ^ Zpos k)
        by (rewrite <- Z.pow_add_r by lia; f_equal; lia).
      assert (E2 : 2 ^ 53 = 2 ^ Zpos (digits2_pos p) * 2 ^ Zpos k)
        by (rewrite <- Z.pow_add_r by lia; f_equal; lia).
      rewrite E1, E2. nia. }
    destruct (binary_round_aux_normal sx (Pos.iter xO p k)
                (Zpos (digits2_pos p) + 0 - 53) loc_Exact)
      as (m & e & E & D & B); [lia | lia | lia |].
    exists m, e. repeat split; auto; lia.
Qed.

Lemma digits2_pos_le (p : positive) (K : Z) :
  Zpos p < 2 ^ K -> Zpos (digits2_pos p) <= K.
Proof.
  intros H. destruct (digits2_pos_bounds p) as [Blo _].
  destruct (Z.le_gt_cases (Zpos (digits2_pos p)) K) as [L | G]; auto.
  assert (2 ^ K <= 2 ^ (Zpos (digits2_pos p) - 1))
    by (apply Z.pow_le_mono_r; lia). lia.
Qed.

Lemma Number_u64 (z : Z) :
  0 < z < 2 ^ 64 ->
  exists (m : positive) (e : Z),
    JS.Number z = S754_finite false m e
    /\ Zpos (digits2_pos m) = 53 /\ -52 <= e <= 12.
Proof.
  intros [Hz Hlt]. destruct z as [| p | p]; try lia.
  pose proof (digits2_pos_le p 64 Hlt) as Hd.
  destruct (binary_round_normal false p) as (m & e & E & D & B); [lia |].
  exists m, e. repeat split; auto; lia.
Qed.

Lemma SFdiv_normal (mx my : positive) (ex ey : Z) :
  Zpos (digits2_pos mx) = 53 -> Zpos (digits2_pos my) = 53 ->
  -400 <= ex <= 400 -> -400 <= ey <= 400 ->
  exists (m : positive) (e : Z),
    SFdiv JS.prec JS.emax (S754_finite false mx ex) (S754_finite false my ey)
    = S754_finite false m e.
Proof.
  intros Dx Dy Hx Hy.
  destruct (digits2_pos_bounds mx) as [Xlo Xhi].
  destruct (digits2_pos_bounds my) as [Ylo Yhi].
  rewrite Dx in Xlo, Xhi. rewrite Dy in Ylo, Yhi.
  change (2 ^ (53 - 1)) with (2 ^ 52) in *.
  unfold SFdiv, SFdiv_core_binary. cbn [Zdigits2 xorb].
  rewrite Dx, Dy. rewrite fexp_normal by lia.
  replace (Z.min (53 + ex - (53 + ey) - 53) (ex - ey)) with (ex - ey - 53) by lia.
  replace (ex - ey - (ex - ey - 53)) with 53 by lia.
  rewrite Z.shiftl_mul_pow2 by lia.
  pose proof (Z.div_mod (Zpos mx * 2 ^ 53) (Zpos my) ltac:(lia)) as E.
  pose proof (Z.mod_pos_bound (Zpos mx * 2 ^ 53) (Zpos my) ltac:(lia)) as M.
  unfold Z.div, Z.modulo in E, M.
  destruct (Z.div_eucl (Zpos mx * 2 ^ 53) (Zpos my)) as [q r].
  assert (Q : 2 ^ 52 <= q < 2 ^ 54).
  { change (2 ^ 52) with 4503599627370496 in *.
    change (2 ^ 53) with 9007199254740992 in *.
    change (2 ^ 54) with 18014398509481984. nia. }
  destruct q as [| mq | mq]; [cbn in Q; lia | | lia].
  assert (Dq : Zpos (digits2_pos mq) = 53 \/ Zpos (digits2_pos mq) = 54).
  { destruct (Z.lt_ge_cases (Zpos mq) (2 ^ 53)).
    - left. apply digits2_pos_unique. change (2 ^ (53 - 1)) with (2 ^ 52). lia.
    - right. apply digits2_pos_unique. change (2 ^ (54 - 1)) with (2 ^ 53). lia. }
  destruct (binary_round_aux_normal false mq (ex - ey - 53)
              (new_location (Zpos my) r))
    as (m & e & E' & _ & _); [lia | lia | lia |].
  exists m, e. exact E'.
Qed.

Lemma shr_fexp_nonneg (m e : Z) (l : location) :
  0 <= m -> 0 <= shr_m (fst (shr_fexp JS.prec JS.emax m e l)).
Proof.
  intros Hm. unfold shr_fexp, shr.
  destruct (fexp JS.prec JS.emax (Zdigits2 m + e) - e) as [| p | p]; cbn [fst].
  - now rewrite shr_record_of_loc_m.
  - rewrite iter_shr_1_m by now rewrite shr_record_of_loc_m.
    rewrite shr_record_of_loc_m. apply Z.div_pos; [lia |].
    apply Z.pow_pos_nonneg; lia.
  - now rewrite shr_record_of_loc_m.
Qed.

Lemma binary_round_aux_not_nan (sx : bool) (m e : Z) (l : location) :
  0 <= m -> binary_round_aux JS.prec JS.emax sx m e l <> S754_nan.
Proof.
  intros Hm. unfold binary_round_aux.
  pose proof (shr_fexp_nonneg m e l Hm) as H1.
  destruct (shr_fexp JS.prec JS.emax m e l) as [r1 e1]. cbn [fst] in H1.
  pose proof (round_nearest_even_bounds (shr_m r1) (loc_of_shr_record r1)) as R.
  pose proof (shr_fexp_nonneg
                (round_nearest_even (shr_m r1) (loc_of_shr_record r1)) e1 loc_Exact
                ltac:(lia)) as H2.
  destruct (shr_fexp JS.prec JS.emax _ e1 loc_Exact) as [r2 e2]. cbn [fst] in H2.
  destruct (shr_m r2) as [| m2 | m2]; [discriminate | | lia].
  destruct (e2 <=? JS.emax - JS.prec); discriminate.
Qed.

Lemma Number_not_nan (z : Z) : JS.Number z <> S754_nan.
Proof.
  unfold JS.Number, binary_normalize, binary_round.
  destruct z as [| p | p]; [discriminate | |].
  - destruct (shl_align p 0 _) as [mz ez].
    apply binary_round_aux_not_nan. lia.
  - destruct (shl_align p 0 _) as [mz ez].
    apply binary_round_aux_not_nan. lia.
Qed.

Lemma SFdiv_finite_not_nan (x : spec_float) (sy : bool) (my : positive) (ey : Z) :
  x <> S754_nan -> SFdiv JS.prec JS.emax x (S754_finite sy my ey) <> S754_nan.
Proof.
  intros Hx. destruct x as [sx | sx | | sx mx ex]; cbn [SFdiv];
    try discriminate; [congruence |].
  unfold SFdiv_core_binary.
  set (s := ex - ey - _).
  set (m' := match s with Z0 => Zpos mx | Zpos _ => Z.shiftl (Zpos mx) s | Zneg _ => 0 end).
  assert (Hm : 0 <= m').
  { unfold m'. destruct s; try lia. apply Z.shiftl_nonneg. lia. }
  pose proof (Z.div_pos m' (Zpos my) Hm ltac:(lia)) as Hq.
  unfold Z.div in Hq. destruct (Z.div_eucl m' (Zpos my)) as [q r].
  apply binary_round_aux_not_nan. exact Hq.
Qed.

Ltac key_case := first [discriminate | reflexivity | lia | exfalso; lia].

Lemma SFcompare_key (x y : spec_float) :
  x <> S754_nan -> y <> S754_nan ->
  exists c : comparison,
    SFcompare x y = Some c
    /\ (c = Lt <-> key_lt (key x) (key y))
    /\ (c = Gt <-> key_lt (key y) (key x)).
Proof.
  intros Hx Hy. unfold key_lt.
  destruct x as [sx | sx | | sx mx ex], y as [sy | sy | | sy my ey];
    try congruence; cbn [SFcompare key];
    try destruct sx; try destruct sy; cbn [fst snd];
    try (eexists; split; [reflexivity | split; split; intros H; key_case]).
  all: change (Pos.compare_cont Eq mx my) with (Pos.compare mx my).
  all: destruct (Z.compare_spec ex ey) as [E | E | E];
    try destruct (Pos.compare_spec mx my) as [F | F | F];
    cbn [CompOpp];
    eexists; (split; [reflexivity | split; split; intros H; key_case]).
Qed.


(** ** Comparison of numbers *)

Lemma gt_not_nan (x y : JS.number) :
  JS.gt x y = true -> x <> S754_nan /\ y <> S754_nan.
Proof.
  unfold JS.gt, SFltb.
  destruct x, y; cbn [SFcompare]; intros H; try discriminate;
    split; discriminate.
Qed.

Lemma gt_key (x y : JS.number) :
  x <> S754_nan -> y <> S754_nan ->
  (JS.gt x y = true <-> key_lt (key y) (key x)).
Proof.
  intros Hx Hy. unfold JS.gt, SFltb.
  destruct (SFcompare_key y x Hy Hx) as (c & -> & Hlt & _).
  rewrite <- Hlt. destruct c; split; intros H; congruence.
Qed.

Lemma le_key (x y : JS.number) :
  x <> S754_nan -> y <> S754_nan ->
  (JS.le x y = true <-> ~ key_lt (key y) (key x)).
Proof.
  intros Hx Hy. unfold JS.le, SFleb.
  destruct (SFcompare_key x y Hx Hy) as (c & -> & _ & Hgt).
  rewrite <- Hgt. destruct c; split; intros H; congruence.
Qed.

Lemma gt_trans (x y z : JS.number) :
  JS.gt x y = true -> JS.gt y z = true -> JS.gt x z = true.
Proof.
  intros Hxy Hyz.
  destruct (gt_not_nan _ _ Hxy) as [Nx Ny].
  destruct (gt_not_nan _ _ Hyz) as [_ Nz].
  apply gt_key in Hxy; auto. apply gt_key in Hyz; auto.
  apply gt_key; auto. unfold key_lt in *. lia.
Qed.

(** What is not greater than [y] is below everything greater than [y]. *)
Lemma gt_of_not_gt (x y z : JS.number) :
  x <> S754_nan -> JS.gt x y = false -> JS.gt z y = true -> JS.gt z x = true.
Proof.
  intros Nx Hxy Hzy.
  destruct (gt_not_nan _ _ Hzy) as [Nz Ny].
  apply gt_key in Hzy; auto.
  assert (Hn : ~ key_lt (key y) (key x)).
  { intros K. apply gt_key in K; auto. congruence. }
  apply gt_key; auto. unfold key_lt in *. lia.
Qed.

Lemma le_of_not_gt (x y : JS.number) :
  x <> S754_nan -> y <> S754_nan -> JS.gt x y = false -> JS.le x y = true.
Proof.
  intros Nx Ny H. apply le_key; auto.
  intros K. apply gt_key in K; auto. congruence.
Qed.

Lemma le_of_gt (x y : JS.number) : JS.gt y x = true -> JS.le x y = true.
Proof.
  intros H. destruct (gt_not_nan _ _ H) as [Ny Nx].
  apply gt_key in H; auto. apply le_key; auto.
  unfold key_lt in *. lia.
Qed.

Lemma le_refl (x : JS.number) : x <> S754_nan -> JS.le x x = true.
Proof.
  intros Nx. apply le_key; auto. unfold key_lt. lia.
Qed.

Lemma gt_zero_truthy (x : JS.number) :
  JS.gt x JS.zero = true -> JS.truthy x = true.
Proof.
  destruct x as [s | s | | s m e]; cbn; intros H; try discriminate; reflexivity.
Qed.

(** ** Prices and reserves as numbers *)

Lemma LAMPORTS_PER_SOL_finite :
  exists (m : positive) (e : Z), LAMPORTS_PER_SOL = S754_finite false m e.
Proof. vm_compute. eauto. Qed.

Lemma native_not_nan (quoteReserve : Z) :
  JS.div (JS.Number quoteReserve) LAMPORTS_PER_SOL <> S754_nan.
Proof.
  destruct LAMPORTS_PER_SOL_finite as (m & e & ->).
  apply SFdiv_finite_not_nan, Number_not_nan.
Qed.

(** For reserves in the range of an unsigned 64-bit amount the price neither
    underflows to 0 nor is a NaN: it is a positive double. *)
Lemma price_positive (baseReserve quoteReserve : Z) :
  0 < baseReserve < 2 ^ 64 -> 0 < quoteReserve < 2 ^ 64 ->
  JS.gt (JS.div (JS.Number quoteReserve) (JS.Number baseReserve)) JS.zero = true.
Proof.
  intros HB HQ.
  destruct (Number_u64 baseReserve HB) as (mb & eb & -> & Db & Eb).
  destruct (Number_u64 quoteReserve HQ) as (mq & eq & -> & Dq & Eq).
  destruct (SFdiv_normal mq mb eq eb) as (m & e & E); try lia.
  unfold JS.div. rewrite E. reflexivity.
Qed.

(** ** Bigint arithmetic *)

Lemma slippage_floor (amount bps : Z) :
  0 <= amount -> bps <= 10000 ->
  calculateWithSlippageBuy amount bps = amount * (10000 - bps) / 10000.
Proof.
  intros Ha Hb. unfold calculateWithSlippageBuy.
  apply Z.quot_div_nonneg; nia.
Qed.

(** ** Promises *)

Lemma Promise_all_map_ok {A B : Type} (f : A -> result B) (l : list A)
    (vs : list B) :
  Promise_all (map f l) = Ok vs <-> Forall2 (fun x v => f x = Ok v) l vs.
Proof.
  revert vs. induction l as [| x l IH]; intros vs; cbn [map Promise_all].
  - split; intros H.
    + injection H as <-. constructor.
    + inversion H. reflexivity.
  - destruct (f x) as [v | e] eqn:Ex; cbn [bind].
    + destruct (Promise_all (map f l)) as [vs' | e'] eqn:El; cbn [bind].
      * split; intros H.
        -- injection H as <-. constructor; [exact Ex | now apply IH].
        -- inversion H as [| ? v' ? vs'' Hv Hvs]; subst.
           apply IH in Hvs. congruence.
      * split; intros H; [discriminate |].
        inversion H as [| ? v' ? vs'' Hv Hvs]; subst.
        apply IH in Hvs. discriminate.
    + split; intros H; [discriminate |].
      inversion H; subst. congruence.
Qed.

Lemma Promise_all_map_throw {A B : Type} (f : A -> result B) (l : list A) :
  (exists x e, In x l /\ f x = Throw e) ->
  exists x e, In x l /\ f x = Throw e /\ Promise_all (map f l) = Throw e.
Proof.
  induction l as [| x l IH]; intros (y & e & Hin & Hy); [destruct Hin |].
  cbn [map Promise_all].
  destruct (f x) as [v | e'] eqn:Ex; cbn [bind].
  - destruct Hin as [-> | Hin]; [congruence |].
    destruct IH as (z & e'' & Hz & Hfz & Hall); [now exists y, e |].
    exists z, e''. rewrite Hall. cbn [bind]. repeat split; auto. now right.
  - exists x, e'. repeat split; auto. now left.
Qed.

(** ** Decimal texts *)

Lemma unsigned_text_of_digits (d : Decimal.uint) :
  d <> Decimal.Nil ->
  JS.StringToNumber (NilZero.string_of_uint d) = JS.Number (Z.of_uint d).
Proof.
  intros Hd.
  assert (E : JS.StringToNumber (NilZero.string_of_uint d)
              = JS.unsigned_text (NilZero.string_of_uint d)).
  { destruct d; reflexivity. }
  rewrite E. unfold JS.unsigned_text. now rewrite NilZero.usu.
Qed.

(** The number of the text of a [BN] that is not negative, as a decoded
    64-bit field is, is the double nearest to its integer: [BN.toNumber]. *)
Lemma Number_of_BN_text (b : BN.t) :
  0 <= b -> JS.StringToNumber (BN.toString b) = BN.toNumber b.
Proof.
  intros Hb. unfold BN.toString, BN.toNumber, JS.decimal.
  destruct b as [| p | p]; [reflexivity | | lia].
  cbn [Z.to_int NilZero.string_of_int].
  rewrite unsigned_text_of_digits by apply DecimalPos.Unsigned.to_uint_nonnil.
  f_equal. change (Z.of_uint (Pos.to_uint p)) with (Z.of_int (Z.to_int (Z.pos p))).
  apply DecimalZ.of_to.
Qed.

Lemma every_char_app (P : ascii -> bool) (s t : string) :
  every_char P (s ++ t) = every_char P s && every_char P t.
Proof.
  induction s as [| c s IH]; [reflexivity |].
  cbn [append every_char]. now rewrite IH, andb_assoc.
Qed.

Lemma decimal_signed_digits (z : Z) :
  every_char signed_digit (JS.decimal z) = true.
Proof.
  assert (U : forall d, every_char signed_digit (NilEmpty.string_of_uint d) = true).
  { induction d; cbn [NilEmpty.string_of_uint every_char]; auto. }
  assert (V : forall d, every_char signed_digit (NilZero.string_of_uint d) = true).
  { intros d. destruct d; try reflexivity; apply (U _). }
  unfold JS.decimal. destruct (Z.to_int z) as [d | d];
    cbn [NilZero.string_of_int every_char]; [apply V |].
  rewrite V. reflexivity.
Qed.

(** The texts that the quoting helpers read as numbers are made of decimal
    digits and minus signs, the texts that [JS.StringToNumber] reads. *)
Lemma plus_bigint_signed_digits (b : BN.t) (z : Z) :
  every_char signed_digit (BN.plus_bigint b z) = true.
Proof.
  unfold BN.plus_bigint, BN.toString.
  now rewrite every_char_app, !decimal_signed_digits.
Qed.

(** ** Lists in step *)

Lemma Forall2_In_l {A B : Type} (R : A -> B -> Prop) (l : list A) (l' : list B) :
  Forall2 R l l' -> forall x, In x l -> exists y, In y l' /\ R x y.
Proof.
  induction 1 as [| a b l l' Hab _ IH]; intros x Hin; [destruct Hin |].
  destruct Hin as [<- | Hin].
  - exists b. split; [now left | exact Hab].
  - destruct (IH x Hin) as (y & Hy & Hxy). exists y. split; [now right | exact Hxy].
Qed.

Lemma Forall2_In_r {A B : Type} (R : A -> B -> Prop) (l : list A) (l' : list B) :
  Forall2 R l l' -> forall y, In y l' -> exists x, In x l /\ R x y.
Proof.
  induction 1 as [| a b l l' Hab _ IH]; intros y Hin; [destruct Hin |].
  destruct Hin as [<- | Hin].
  - exists a. split; [now left | exact Hab].
  - destruct (IH y Hin) as (x & Hx & Hxy). exists x. split; [now right | exact Hxy].
Qed.

(** ** Pricing one pool *)

(** The guard of [getPriceAndLiquidity] tests [BN] objects with [!] and
    [=== 0n]: it never fires, and every pool is priced. *)
Lemma getPriceAndLiquidity_eq (pool : Pool) :
  getPriceAndLiquidity pool
  = Ok {| toPool := pool;
          price := JS.div (JS.Number (quoteReserve (poolData pool)))
                          (JS.Number (baseReserve (poolData pool)));
          reserves :=
            {| native := JS.div (JS.Number (quoteReserve (poolData pool)))
                                LAMPORTS_PER_SOL;
               token := JS.div (JS.Number (baseReserve (poolData pool)))
                               pow10_DECIMALS |} |}.
Proof. reflexivity. Qed.

Lemma getPriceAndLiquidity_ok (pool : Pool) (priced : PoolWithPrice) :
  getPriceAndLiquidity pool = Ok priced ->
  toPool priced = pool
  /\ price priced
     = JS.div (JS.Number (quoteReserve (poolData pool)))
              (JS.Number (baseReserve (poolData pool)))
  /\ native (reserves priced)
     = JS.div (JS.Number (quoteReserve (poolData pool))) LAMPORTS_PER_SOL
  /\ token (reserves priced)
     = JS.div (JS.Number (baseReserve (poolData pool))) pow10_DECIMALS.
Proof.
  rewrite getPriceAndLiquidity_eq. intros H. injection H as <-. cbn. auto.
Qed.

Lemma getPriceAndLiquidity_total (pool : Pool) :
  exists priced, getPriceAndLiquidity pool = Ok priced.
Proof. rewrite getPriceAndLiquidity_eq. eauto. Qed.

Lemma Promise_all_pricing (pools : list Pool) :
  exists priced,
    Promise_all (map getPriceAndLiquidity pools) = Ok priced
    /\ Forall2 (fun pool p => getPriceAndLiquidity pool = Ok p) pools priced.
Proof.
  induction pools as [| pool pools (priced & E & F)].
  - exists []. split; [reflexivity | constructor].
  - destruct (getPriceAndLiquidity_total pool) as [p Hp].
    exists (p :: priced). split.
    + cbn [map Promise_all]. rewrite Hp, E. reflexivity.
    + constructor; assumption.
Qed.

(** A quotient with a numerator of 0 is 0, -0 or NaN, never above 0; a
    positive finite numerator over 0 is +Infinity. *)
Lemma div_zero_not_positive (y : JS.number) :
  JS.gt (JS.div (JS.Number 0) y) JS.zero = false.
Proof. destruct y as [[] | [] | | [] m e]; reflexivity. Qed.

Lemma div_by_zero_infinite (quoteReserve : Z) :
  0 < quoteReserve < 2 ^ 64 ->
  JS.div (JS.Number quoteReserve) (JS.Number 0) = S754_infinity false.
Proof.
  intros HQ. destruct (Number_u64 quoteReserve HQ) as (m & e & -> & _).
  reflexivity.
Qed.

(** ** Discovery *)

Section Discovery.

Variable connection : Connection.
Variable coder : Coder.
Variable mint : PublicKey.

(** Once the three lookups have answered, discovery prices every candidate
    of the concatenation and keeps those with a positive price. *)
Lemma getPoolsWithPrices_lookups (basePools quotePools wsolPools : list Pool) :
  getPoolsWithBaseMint connection coder mint = Ok basePools ->
  getPoolsWithQuoteMint connection coder mint = Ok quotePools ->
  getPoolsWithBaseMintQuoteWSOL connection coder mint = Ok wsolPools ->
  getPoolsWithPrices connection coder mint
  = (let* priced :=
       Promise_all (map getPriceAndLiquidity (basePools ++ quotePools ++ wsolPools)) in
     Ok (filter positive_price priced)).
Proof.
  intros Hb Hq Hw. unfold getPoolsWithPrices.
  cbn [Promise_all]. rewrite Hb, Hq, Hw. reflexivity.
Qed.

Lemma getPoolsWithPrices_ok_inv (out : list PoolWithPrice) :
  getPoolsWithPrices connection coder mint = Ok out ->
  exists (basePools quotePools wsolPools : list Pool) (priced : list PoolWithPrice),
    getPoolsWithBaseMint connection coder mint = Ok basePools
    /\ getPoolsWithQuoteMint connection coder mint = Ok quotePools
    /\ getPoolsWithBaseMintQuoteWSOL connection coder mint = Ok wsolPools
    /\ Forall2 (fun pool p => getPriceAndLiquidity pool = Ok p)
         (basePools ++ quotePools ++ wsolPools) priced
    /\ out = filter positive_price priced.
Proof.
  intros H.
  destruct (getPoolsWithBaseMint connection coder mint) as [b | e] eqn:Hb;
    [| unfold getPoolsWithPrices in H; cbn [Promise_all] in H;
       rewrite Hb in H; discriminate].
  destruct (getPoolsWithQuoteMint connection coder mint) as [q | e] eqn:Hq;
    [| unfold getPoolsWithPrices in H; cbn [Promise_all] in H;
       rewrite Hb, Hq in H; discriminate].
  destruct (getPoolsWithBaseMintQuoteWSOL connection coder mint) as [w | e] eqn:Hw;
    [| unfold getPoolsWithPrices in H; cbn [Promise_all] in H;
       rewrite Hb, Hq, Hw in H; discriminate].
  rewrite (getPoolsWithPrices_lookups b q w Hb Hq Hw) in H.
  destruct (Promise_all (map getPriceAndLiquidity (b ++ q ++ w)))
    as [priced | e] eqn:Hp; [| discriminate].
  cbn [bind] in H. injection H as <-.
  exists b, q, w, priced. repeat split; auto.
  now apply Promise_all_map_ok.
Qed.

Lemma getPoolsWithPrices_lookup_throws :
  (exists e, getPoolsWithBaseMint connection coder mint = Throw e)
  \/ (exists e, getPoolsWithQuoteMint connection coder mint = Throw e)
  \/ (exists e, getPoolsWithBaseMintQuoteWSOL connection coder mint = Throw e) ->
  exists e, getPoolsWithPrices connection coder mint = Throw e.
Proof.
  intros H. unfold getPoolsWithPrices. cbn [Promise_all].
  destruct (getPoolsWithBaseMint connection coder mint) as [b | e1];
    [| eexists; reflexivity].
  destruct (getPoolsWithQuoteMint connection coder mint) as [q | e2];
    [| eexists; reflexivity].
  destruct (getPoolsWithBaseMintQuoteWSOL connection coder mint) as [w | e3];
    [| eexists; reflexivity].
  destruct H as [[e H] | [[e H] | [e H]]]; discriminate.
Qed.

(** Every pool that discovery returns was priced by [getPriceAndLiquidity]:
    its price is positive and its native reserve is a number. *)
Lemma discovered_pool_facts (out : list PoolWithPrice) (p : PoolWithPrice) :
  getPoolsWithPrices connection coder mint = Ok out ->
  In p out ->
  getPriceAndLiquidity (toPool p) = Ok p
  /\ JS.gt (price p) JS.zero = true
  /\ native (reserves p) <> S754_nan.
Proof.
  intros H Hin.
  destruct (getPoolsWithPrices_ok_inv out H)
    as (b & q & w & priced & _ & _ & _ & Hall & ->).
  apply filter_In in Hin. destruct Hin as [Hin Hpos].
  assert (Hp : exists pool, getPriceAndLiquidity pool = Ok p).
  { clear - Hall Hin. induction Hall as [| pool p' l l' Hp' _ IH];
      [destruct Hin |].
    destruct Hin as [-> | Hin]; eauto. }
  destruct Hp as [pool Hp].
  destruct (getPriceAndLiquidity_ok pool p Hp) as (Ht & _ & Hn & _).
  rewrite Ht. repeat split; auto.
  rewrite Hn. apply native_not_nan.
Qed.

End Discovery.

(** ** Selection *)

Lemma reduce_better_In (rest : list PoolWithPrice) (first : PoolWithPrice) :
  In (reduce better first rest) (first :: rest).
Proof.
  unfold reduce. revert first.
  induction rest as [| c rest IH]; intros first; cbn [fold_left].
  - now left.
  - destruct (IH (better first c)) as [E | H].
    + rewrite <- E. unfold better. destruct (JS.gt _ _); cbn [In]; auto.
    + right. right. exact H.
Qed.

(** The invariant of the reduction: the accumulator is strictly above all
    that came before it and not below anything seen after it. *)
Lemma reduce_better_split (rest : list PoolWithPrice) :
  forall (before : list PoolWithPrice) (best : PoolWithPrice)
         (after : list PoolWithPrice),
    Forall (fun p => native_of p <> S754_nan) (after ++ rest) ->
    Forall (fun p => JS.gt (native_of best) (native_of p) = true) before ->
    Forall (fun p => JS.gt (native_of p) (native_of best) = false) after ->
    exists before' after',
      before ++ best :: after ++ rest
      = before' ++ reduce better best rest :: after'
      /\ Forall (fun p => JS.gt (native_of (reduce better best rest)) (native_of p)
                          = true) before'
      /\ Forall (fun p => JS.gt (native_of p) (native_of (reduce better best rest))
                          = false) after'.
Proof.
  unfold reduce.
  induction rest as [| c rest IH]; intros before best after Hnan Hbefore Hafter.
  - exists before, after. rewrite app_nil_r. cbn [fold_left]. auto.
  - cbn [fold_left]. unfold better at 2 4 6. fold (native_of c) (native_of best).
    destruct (JS.gt (native_of c) (native_of best)) eqn:Hc.
    + destruct (IH (before ++ best :: after) c []) as (b' & a' & E & Hb' & Ha').
      * apply Forall_app in Hnan. destruct Hnan as [_ Hnan].
        inversion Hnan; subst. assumption.
      * apply Forall_app. split; [| constructor].
        -- eapply Forall_impl; [| exact Hbefore].
           intros p Hp. cbn beta in Hp. eapply gt_trans; eauto.
        -- exact Hc.
        -- apply Forall_app in Hnan. destruct Hnan as [Hnan _].
           rewrite Forall_forall in *. intros p Hp.
           eapply gt_of_not_gt; eauto.
      * constructor.
      * exists b', a'. split; auto. rewrite <- E.
        rewrite <- app_assoc. reflexivity.
    + destruct (IH before best (after ++ [c])) as (b' & a' & E & Hb' & Ha').
      * rewrite <- app_assoc. exact Hnan.
      * exact Hbefore.
      * apply Forall_app. split; auto.
      * exists b', a'. split; auto. rewrite <- E.
        rewrite <- app_assoc. reflexivity.
Qed.

(** ** Quotes *)

Section Quotes.

Variable connection : Connection.
Variable coder : Coder.
Variable mint : PublicKey.
Variable pool : PoolWithPrice.

Let B := baseReserve (poolData pool).
Let Q := quoteReserve (poolData pool).

Hypothesis best : getBestPool connection coder mint = Ok (Some pool).

(** With a best pool the helpers return a number, whatever the amount: the
    product of the reserves as numbers, divided by the number that the two
    joined texts read as, taken from the reserve as a number. *)
Lemma buy_quote_eq (quoteAmountIn : Z) :
  calculateBuyTokenAmount connection coder quoteAmountIn mint
  = Ok (JS.sub (JS.Number B)
          (JS.div (JS.mul (JS.Number B) (JS.Number Q))
                  (JS.StringToNumber (BN.plus_bigint Q quoteAmountIn)))).
Proof. unfold calculateBuyTokenAmount. rewrite best. reflexivity. Qed.

Lemma sell_quote_eq (baseAmountIn : Z) :
  calculateSellSolAmount connection coder baseAmountIn mint
  = Ok (JS.sub (JS.Number Q)
          (JS.div (JS.mul (JS.Number B) (JS.Number Q))
                  (JS.StringToNumber (BN.plus_bigint B baseAmountIn)))).
Proof. unfold calculateSellSolAmount. rewrite best. reflexivity. Qed.

End Quotes.

(** ** The example pools *)

Lemma one_pool_best :
  exists p : PoolWithPrice,
    getBestPool Example.one_pool Example.coder Example.mint = Ok (Some p)
    /\ baseReserve (poolData p) = 500000000
    /\ quoteReserve (poolData p) = 50000000000.
Proof. vm_compute. eexists. repeat split. Qed.

Lemma thin_pool_best :
  exists p : PoolWithPrice,
    getBestPool Example.thin_pool Example.coder Example.mint = Ok (Some p)
    /\ baseReserve (poolData p) = 1
    /\ quoteReserve (poolData p) = 1000.
Proof. vm_compute. eexists. repeat split. Qed.

Lemma tiny_pool_best :
  exists p : PoolWithPrice,
    getBestPool Example.tiny_pool Example.coder Example.mint = Ok (Some p)
    /\ baseReserve (poolData p) = 21
    /\ quoteReserve (poolData p) = 4.
Proof. vm_compute. eexists. repeat split. Qed.

(** * Quotes and slippage *)

(** C2: for a non-negative ideal amount and [bps] in [0, 10000], both slippage
    helpers equal [floor(idealAmount * (10000 - bps) / 10000)]; a tolerance of
    0 returns the amount, a tolerance of 10000 returns 0, and the result does
    not increase when the tolerance grows. *)
Theorem slippage_formula (idealAmount bps : Z) :
  0 <= idealAmount -> 0 <= bps <= 10000 ->
  calculateWithSlippageBuy idealAmount bps = idealAmount * (10000 - bps) / 10000
  /\ calculateWithSlippageSell idealAmount bps = idealAmount * (10000 - bps) / 10000
  /\ calculateWithSlippageBuy idealAmount 0 = idealAmount
  /\ calculateWithSlippageSell idealAmount 0 = idealAmount
  /\ calculateWithSlippageBuy idealAmount 10000 = 0
  /\ calculateWithSlippageSell idealAmount 10000 = 0
  /\ (forall bps', bps <= bps' <= 10000 ->
        calculateWithSlippageBuy idealAmount bps'
        <= calculateWithSlippageBuy idealAmount bps
        /\ calculateWithSlippageSell idealAmount bps'
           <= calculateWithSlippageSell idealAmount bps).
Proof.
  intros Ha Hb.
  assert (Hzero : calculateWithSlippageBuy idealAmount 0 = idealAmount).
  { rewrite slippage_floor by lia.
    replace (idealAmount * (10000 - 0)) with (idealAmount * 10000) by lia.
    apply Z.div_mul. lia. }
  assert (Hfull : calculateWithSlippageBuy idealAmount 10000 = 0).
  { rewrite slippage_floor by lia.
    now replace (idealAmount * (10000 - 10000)) with 0 by lia. }
  assert (Hmono : forall bps', bps <= bps' <= 10000 ->
             calculateWithSlippageBuy idealAmount bps'
             <= calculateWithSlippageBuy idealAmount bps).
  { intros bps' Hb'. rewrite !slippage_floor by lia.
    apply Z.div_le_mono; nia. }
  change calculateWithSlippageSell with calculateWithSlippageBuy.
  pose proof (slippage_floor idealAmount bps Ha ltac:(lia)) as Hfloor.
  repeat match goal with |- _ /\ _ => split end; auto.
Qed.

Lemma slippage_formula_witness :
  calculateWithSlippageBuy 9803922 500 = 9313725
  /\ calculateWithSlippageSell 9803922 500 = 9313725.
Proof.
  destruct (slippage_formula 9803922 500) as (Hbuy & Hsell & _);
    [lia | lia |].
  rewrite Hbuy, Hsell. split; reflexivity.
Defined.

(** C1: the quotes are not the integer formulas.  Against the decoded pool
    of 500000000 raw token units and 50000000000 lamports, a buy of
    1000000000 lamports is quoted the number 499999999.95 where the formula
    gives 9803922, and a sale of 1000000 raw units is quoted 49999995000
    where the formula gives 99800400: the sum of a reserve and the amount is
    the text of the one followed by the text of the other. *)
Theorem quotes_are_not_the_integer_formulas :
  exists bought sold : JS.number,
    calculateBuyTokenAmount Example.one_pool Example.coder 1000000000 Example.mint
    = Ok bought
    /\ calculateSellSolAmount Example.one_pool Example.coder 1000000 Example.mint
       = Ok sold
    /\ bought = S754_finite false 8388607999161139 (-24)
    /\ JS.gt bought (JS.Number 499999999) = true
    /\ JS.gt (JS.Number 500000000) bought = true
    /\ sold = JS.Number 49999995000
    /\ BN.plus_bigint 50000000000 1000000000 = "500000000001000000000"
    /\ BN.plus_bigint 500000000 1000000 = "5000000001000000"
    /\ spec_buy_quote 500000000 50000000000 1000000000 = 9803922
    /\ spec_sell_quote 500000000 50000000000 1000000 = 99800400
    /\ bought <> JS.Number (spec_buy_quote 500000000 50000000000 1000000000)
    /\ sold <> JS.Number (spec_sell_quote 500000000 50000000000 1000000).
Proof.
  destruct one_pool_best as (p & Hp & HB & HQ).
  do 2 eexists.
  split; [rewrite (buy_quote_eq _ _ _ p Hp), HB, HQ; reflexivity |].
  split; [rewrite (sell_quote_eq _ _ _ p Hp), HB, HQ; reflexivity |].
  repeat split; try (vm_compute; reflexivity); vm_compute; discriminate.
Qed.


(** C8, as the code has it: the quoting helpers have no reserve-exhaustion
    check.  Once a best pool is found they return a quote for every
    amount, however large. *)
Theorem every_trade_is_quoted (connection : Connection) (coder : Coder)
    (mint : PublicKey) (pool : PoolWithPrice) (amountIn : Z) :
  getBestPool connection coder mint = Ok (Some pool) ->
  (exists quote : JS.number,
      calculateBuyTokenAmount connection coder amountIn mint = Ok quote)
  /\ (exists quote : JS.number,
        calculateSellSolAmount connection coder amountIn mint = Ok quote)
  /\ (forall e : error,
        calculateBuyTokenAmount connection coder amountIn mint <> Throw e
        /\ calculateSellSolAmount connection coder amountIn mint <> Throw e).
Proof.
  intros Hbest.
  rewrite (buy_quote_eq _ _ _ _ Hbest), (sell_quote_eq _ _ _ _ Hbest).
  split; [eauto |]. split; [eauto |].
  intros e. split; discriminate.
Qed.

Lemma every_trade_is_quoted_witness :
  (exists quote : JS.number,
      calculateBuyTokenAmount Example.thin_pool Example.coder
        (10 ^ 30) Example.mint = Ok quote)
  /\ (exists quote : JS.number,
        calculateSellSolAmount Example.thin_pool Example.coder
          (10 ^ 30) Example.mint = Ok quote).
Proof.
  destruct thin_pool_best as (p & Hp & _).
  destruct (every_trade_is_quoted _ _ _ p (10 ^ 30) Hp) as (Hbuy & Hsell & _).
  split; assumption.
Defined.

(** C8 as stated fails: against reserves [(1, 1000)] a buy of 1 lamport
    drives the new base reserve of the specification, [k / (Q + 1)], to 0,
    and the helper returns a quote. *)
Lemma oversized_trade_not_rejected :
  1 * 1000 / (1000 + 1) = 0
  /\ (exists quote : JS.number,
        calculateBuyTokenAmount Example.thin_pool Example.coder 1 Example.mint
        = Ok quote)
  /\ ~ (exists e : error,
          calculateBuyTokenAmount Example.thin_pool Example.coder 1 Example.mint
          = Throw e).
Proof.
  split; [reflexivity |].
  destruct thin_pool_best as (p & Hp & _).
  rewrite (buy_quote_eq _ _ _ p Hp).
  split; [eauto | intros [e He]; discriminate].
Qed.


(** * Discovery: failure, filtering and order *)

(** C6: when one of the three discovery queries fails, discovery fails and the
    caller gets an error, never a list; when the three queries answer with no
    match, discovery returns the empty list. *)
Theorem discovery_failure_or_empty (connection : Connection) (coder : Coder)
    (mint : PublicKey) :
  ((exists e, getProgramAccounts connection PROGRAM_IDS.PUMP_AMM
                (baseMintFilters mint) = Throw e)
   \/ (exists e, getProgramAccounts connection PROGRAM_IDS.PUMP_AMM
                   (quoteMintFilters mint) = Throw e)
   \/ (exists e, getProgramAccounts connection PROGRAM_IDS.PUMP_AMM
                   (baseMintQuoteWSOLFilters mint) = Throw e) ->
   exists e,
     getPoolsWithPrices connection coder mint = Throw e
     /\ getBestPool connection coder mint = Throw e
     /\ getPrice connection coder mint = Throw e)
  /\ (getProgramAccounts connection PROGRAM_IDS.PUMP_AMM (baseMintFilters mint)
      = Ok [] ->
      getProgramAccounts connection PROGRAM_IDS.PUMP_AMM (quoteMintFilters mint)
      = Ok [] ->
      getProgramAccounts connection PROGRAM_IDS.PUMP_AMM
        (baseMintQuoteWSOLFilters mint) = Ok [] ->
      getPoolsWithPrices connection coder mint = Ok []).
Proof.
  split.
  - intros H.
    destruct (getPoolsWithPrices_lookup_throws connection coder mint) as [e He].
    { unfold getPoolsWithBaseMint, getPoolsWithQuoteMint,
        getPoolsWithBaseMintQuoteWSOL.
      destruct H as [[e H] | [[e H] | [e H]]]; rewrite H; cbn [bind]; eauto. }
    exists e. unfold getPrice, getBestPool. rewrite He. auto.
  - intros Hb Hq Hw.
    rewrite (getPoolsWithPrices_lookups connection coder mint [] [] []).
    + reflexivity.
    + unfold getPoolsWithBaseMint. now rewrite Hb.
    + unfold getPoolsWithQuoteMint. now rewrite Hq.
    + unfold getPoolsWithBaseMintQuoteWSOL. now rewrite Hw.
Qed.

Lemma discovery_failure_or_empty_witness :
  (exists e,
      getPoolsWithPrices Example.quote_lookup_fails Example.coder Example.mint
      = Throw e
      /\ getBestPool Example.quote_lookup_fails Example.coder Example.mint
         = Throw e
      /\ getPrice Example.quote_lookup_fails Example.coder Example.mint
         = Throw e)
  /\ getPoolsWithPrices Example.nothing_listed Example.coder Example.mint = Ok [].
Proof.
  split.
  - apply (discovery_failure_or_empty
             Example.quote_lookup_fails Example.coder Example.mint).
    right. left. eexists. reflexivity.
  - apply (discovery_failure_or_empty
             Example.nothing_listed Example.coder Example.mint); reflexivity.
Defined.

(** C4: a pool without base reserve is returned.  On decoded reserves the
    guard of [getPriceAndLiquidity] never fires, so a zero reserve is never
    fatal to discovery.  A pool whose quote reserve is 0 has a price of 0 or
    NaN and is dropped by the filter [price > 0]; a pool whose base reserve
    alone is 0 has the price +Infinity, which the filter keeps. *)
Theorem zero_base_pool_is_returned (connection : Connection) (coder : Coder)
    (mint : PublicKey) (basePools quotePools wsolPools : list Pool) :
  getPoolsWithBaseMint connection coder mint = Ok basePools ->
  getPoolsWithQuoteMint connection coder mint = Ok quotePools ->
  getPoolsWithBaseMintQuoteWSOL connection coder mint = Ok wsolPools ->
  exists out : list PoolWithPrice,
    getPoolsWithPrices connection coder mint = Ok out
    /\ (forall p : PoolWithPrice,
          In p out -> quoteReserve (poolData p) <> 0)
    /\ (forall pool : Pool,
          In pool (basePools ++ quotePools ++ wsolPools) ->
          baseReserve (poolData pool) = 0 ->
          0 < quoteReserve (poolData pool) < 2 ^ 64 ->
          exists p : PoolWithPrice,
            In p out /\ toPool p = pool /\ price p = S754_infinity false).
Proof.
  intros Hb Hq Hw.
  rewrite (getPoolsWithPrices_lookups _ _ _ _ _ _ Hb Hq Hw).
  generalize (basePools ++ quotePools ++ wsolPools). intros all.
  destruct (Promise_all_pricing all) as (priced & -> & Hall). cbn [bind].
  exists (filter positive_price priced).
  split; [reflexivity |]. split.
  - intros p Hin HQ. apply filter_In in Hin. destruct Hin as [Hin Hpos].
    destruct (Forall2_In_r _ _ _ Hall p Hin) as (pool & _ & Hp).
    destruct (getPriceAndLiquidity_ok pool p Hp) as (Ht & Hprice & _).
    unfold positive_price in Hpos. rewrite Hprice in Hpos.
    rewrite <- Ht, HQ in Hpos.
    now rewrite div_zero_not_positive in Hpos.
  - intros pool Hin HB HQ.
    destruct (Forall2_In_l _ _ _ Hall pool Hin) as (p & Hp_in & Hp).
    destruct (getPriceAndLiquidity_ok pool p Hp) as (Ht & Hprice & _).
    rewrite HB, (div_by_zero_infinite _ HQ) in Hprice.
    exists p. split; [| auto].
    apply filter_In. split; [exact Hp_in |].
    unfold positive_price. now rewrite Hprice.
Qed.

Lemma zero_base_pool_is_returned_witness :
  (exists (out : list PoolWithPrice) (p : PoolWithPrice),
      getPoolsWithPrices Example.with_zero_base_pool Example.coder Example.mint
      = Ok out
      /\ In p out
      /\ address p = "PoolI"
      /\ baseReserve (poolData p) = 0
      /\ price p = S754_infinity false)
  /\ (exists out : list PoolWithPrice,
        getPoolsWithPrices Example.with_zero_quote_pool Example.coder Example.mint
        = Ok out
        /\ map address (map toPool out) = ["PoolA"])
  /\ (exists out : list PoolWithPrice,
        getPoolsWithPrices Example.with_empty_pool Example.coder Example.mint
        = Ok out
        /\ map address (map toPool out) = ["PoolA"]).
Proof.
  split; [| split].
  - destruct (zero_base_pool_is_returned
                Example.with_zero_base_pool Example.coder Example.mint
                _ _ _ eq_refl eq_refl eq_refl) as (out & Hout & _ & Hzero).
    destruct (Hzero {| address := "PoolI"; is_native_base := false;
                       poolData := {| baseReserve := 0; quoteReserve := 1000 |} |})
      as (p & Hin & Hp & Hprice).
    + right. left. reflexivity.
    + reflexivity.
    + cbn. lia.
    + exists out, p. rewrite Hp. auto.
  - destruct (zero_base_pool_is_returned
                Example.with_zero_quote_pool Example.coder Example.mint
                _ _ _ eq_refl eq_refl eq_refl) as (out & Hout & _).
    exists out. split; [exact Hout |].
    vm_compute in Hout. injection Hout as <-. reflexivity.
  - destruct (zero_base_pool_is_returned
                Example.with_empty_pool Example.coder Example.mint
                _ _ _ eq_refl eq_refl eq_refl) as (out & Hout & _).
    exists out. split; [exact Hout |].
    vm_compute in Hout. injection Hout as <-. reflexivity.
Defined.



(** * Selection and price *)

(** C3: on an empty discovery result the selector returns [null]; otherwise
    it returns a pool of the list whose native reserve no pool of the list
    exceeds, and every pool listed before it has a strictly smaller native
    reserve: among equals the first one is kept. *)
Theorem best_pool_is_first_greatest (connection : Connection) (coder : Coder)
    (mint : PublicKey) (pools : list PoolWithPrice) :
  getPoolsWithPrices connection coder mint = Ok pools ->
  (pools = [] -> getBestPool connection coder mint = Ok None)
  /\ (pools <> [] ->
      exists (best : PoolWithPrice) (before after : list PoolWithPrice),
        getBestPool connection coder mint = Ok (Some best)
        /\ pools = before ++ best :: after
        /\ (forall p, In p pools ->
                      JS.le (native (reserves p)) (native (reserves best)) = true)
        /\ (forall p, In p before ->
                      JS.gt (native (reserves best)) (native (reserves p)) = true)).
Proof.
  intros Hpools. unfold getBestPool. rewrite Hpools. cbn [bind].
  split; [intros ->; reflexivity |].
  intros Hne. destruct pools as [| first rest]; [contradiction |].
  assert (Hnan : Forall (fun p => native_of p <> S754_nan) (first :: rest)).
  { apply Forall_forall. intros p Hp.
    now destruct (discovered_pool_facts _ _ _ _ p Hpools Hp) as (_ & _ & Hn). }
  destruct (reduce_better_split rest [] first []) as (before & after & E & Hb & Ha).
  { inversion Hnan; subst. assumption. }
  { constructor. }
  { constructor. }
  cbn [app] in E.
  exists (reduce better first rest), before, after.
  split; [reflexivity |]. split; [exact E |].
  rewrite Forall_forall in Hnan, Hb, Ha.
  assert (Hbest : native_of (reduce better first rest) <> S754_nan).
  { apply Hnan, reduce_better_In. }
  split.
  - intros p Hp. rewrite E in Hp. apply in_app_or in Hp.
    destruct Hp as [Hp | [<- | Hp]].
    + apply le_of_gt. now apply Hb.
    + now apply le_refl.
    + apply le_of_not_gt; [| exact Hbest | now apply Ha].
      apply Hnan. rewrite E. apply in_or_app. right. now right.
  - exact Hb.
Qed.

Lemma best_pool_is_first_greatest_witness :
  (exists best : PoolWithPrice,
      getBestPool Example.three_pools Example.coder Example.mint = Ok (Some best)
      /\ address best = "PoolB")
  /\ (exists best : PoolWithPrice,
         getBestPool Example.tied_pools Example.coder Example.mint = Ok (Some best)
         /\ address best = "PoolB")
  /\ getBestPool Example.nothing_listed Example.coder Example.mint = Ok None.
Proof.
  split; [| split].
  - destruct (best_pool_is_first_greatest
                Example.three_pools Example.coder Example.mint _ eq_refl)
      as [_ H].
    destruct H as (best & before & after & Hbest & _); [discriminate |].
    exists best. split; [exact Hbest |].
    vm_compute in Hbest. injection Hbest as <-. reflexivity.
  - destruct (best_pool_is_first_greatest
                Example.tied_pools Example.coder Example.mint _ eq_refl)
      as [_ H].
    destruct H as (best & before & after & Hbest & _); [discriminate |].
    exists best. split; [exact Hbest |].
    vm_compute in Hbest. injection Hbest as <-. reflexivity.
  - apply (best_pool_is_first_greatest
             Example.nothing_listed Example.coder Example.mint [] eq_refl).
    reflexivity.
Defined.

(** C10: [getPrice] returns [null] exactly when [getBestPool] does; the price
    of a best pool is strictly positive and is what [getPrice] returns, so a
    price that is not [null] is strictly positive; a best pool priced exactly
    0 would be turned into [null] by [|| null]. *)
Theorem price_is_null_or_positive (connection : Connection) (coder : Coder)
    (mint : PublicKey) :
  (getPrice connection coder mint = Ok None
   <-> getBestPool connection coder mint = Ok None)
  /\ (forall best : PoolWithPrice,
         getBestPool connection coder mint = Ok (Some best) ->
         JS.gt (price best) JS.zero = true
         /\ getPrice connection coder mint = Ok (Some (price best)))
  /\ (forall x : JS.number,
         getPrice connection coder mint = Ok (Some x) ->
         JS.gt x JS.zero = true)
  /\ (forall (p : PoolWithPrice) (s : bool),
         price p = S754_zero s -> price_or_null (Some p) = None).
Proof.
  assert (Hbest : forall best,
             getBestPool connection coder mint = Ok (Some best) ->
             JS.gt (price best) JS.zero = true).
  { intros best H. unfold getBestPool in H.
    destruct (getPoolsWithPrices connection coder mint) as [pools | e] eqn:Hp;
      [| discriminate].
    cbn [bind] in H. destruct pools as [| first rest]; [discriminate |].
    injection H as <-.
    now destruct (discovered_pool_facts _ _ _ _ _ Hp (reduce_better_In rest first))
      as (_ & Hpos & _). }
  assert (Hprice : forall best,
             getBestPool connection coder mint = Ok (Some best) ->
             getPrice connection coder mint = Ok (Some (price best))).
  { intros best H. unfold getPrice. rewrite H. cbn [bind price_or_null].
    now rewrite (gt_zero_truthy _ (Hbest best H)). }
  split; [| split; [| split]].
  - split; intros H.
    + destruct (getBestPool connection coder mint) as [[best |] | e] eqn:E.
      * rewrite (Hprice best eq_refl) in H. discriminate.
      * reflexivity.
      * unfold getPrice in H. rewrite E in H. discriminate.
    + unfold getPrice. rewrite H. reflexivity.
  - intros best H. split; auto.
  - intros x H.
    destruct (getBestPool connection coder mint) as [[best |] | e] eqn:E.
    + rewrite (Hprice best eq_refl) in H. injection H as <-. now apply Hbest.
    + unfold getPrice in H. rewrite E in H. discriminate.
    + unfold getPrice in H. rewrite E in H. discriminate.
  - intros p s H. cbn [price_or_null]. rewrite H. reflexivity.
Qed.

Lemma price_is_null_or_positive_witness :
  (exists x : JS.number,
      getPrice Example.one_pool Example.coder Example.mint = Ok (Some x)
      /\ x = JS.Number 100)
  /\ getPrice Example.nothing_listed Example.coder Example.mint = Ok None.
Proof.
  destruct (price_is_null_or_positive
              Example.one_pool Example.coder Example.mint) as (_ & Hbest & _).
  destruct (price_is_null_or_positive
              Example.nothing_listed Example.coder Example.mint) as (Hnull & _).
  split.
  - destruct one_pool_best as (p & Hp & _).
    destruct (Hbest p Hp) as [_ Hprice].
    exists (price p). split; [exact Hprice |].
    vm_compute in Hp. injection Hp as <-. reflexivity.
  - apply Hnull. reflexivity.
Defined.

(** C5: what the code computes on a pool holding one token (6 decimals)
    against one SOL.  The two entries of [reserves] are normalized (1 and 1),
    the price is not: it is the ratio of the raw amounts, 1000. *)
Theorem price_is_ratio_of_raw_amounts :
  exists p : PoolWithPrice,
    getPriceAndLiquidity Example.unit_pool = Ok p
    /\ native (reserves p) = JS.Number 1
    /\ token (reserves p) = JS.Number 1
    /\ price p = JS.Number 1000
    /\ price p <> JS.div (native (reserves p)) (token (reserves p)).
Proof.
  eexists. split; [reflexivity |].
  split; [reflexivity |]. split; [reflexivity |]. split; [reflexivity |].
  vm_compute. discriminate.
Qed.

(** * Further properties of the quoting helpers *)

(** X4: how the quoting helpers fail: with no pool they throw
    ['No pool found'], a failed discovery is rethrown as it is, and these
    are their only failures.  With a best pool they return a number for
    every amount; no division throws, also when the amount is the opposite
    of the reserve it is added to. *)
Theorem quote_failures (connection : Connection) (coder : Coder)
    (mint : PublicKey) (amountIn : Z) :
  (getBestPool connection coder mint = Ok None ->
   calculateBuyTokenAmount connection coder amountIn mint
   = Throw (Error "No pool found")
   /\ calculateSellSolAmount connection coder amountIn mint
      = Throw (Error "No pool found"))
  /\ (forall e, getBestPool connection coder mint = Throw e ->
        calculateBuyTokenAmount connection coder amountIn mint = Throw e
        /\ calculateSellSolAmount connection coder amountIn mint = Throw e)
  /\ (forall pool, getBestPool connection coder mint = Ok (Some pool) ->
        (exists quote : JS.number,
            calculateBuyTokenAmount connection coder amountIn mint = Ok quote)
        /\ (exists quote : JS.number,
              calculateSellSolAmount connection coder amountIn mint = Ok quote))
  /\ (forall e,
        calculateBuyTokenAmount connection coder amountIn mint = Throw e
        <-> getBestPool connection coder mint = Throw e
            \/ (getBestPool connection coder mint = Ok None
                /\ e = Error "No pool found"))
  /\ (forall e,
        calculateSellSolAmount connection coder amountIn mint = Throw e
        <-> getBestPool connection coder mint = Throw e
            \/ (getBestPool connection coder mint = Ok None
                /\ e = Error "No pool found")).
Proof.
  unfold calculateBuyTokenAmount, calculateSellSolAmount.
  destruct (getBestPool connection coder mint) as [[pool |] | e0]; cbn [bind].
  - split; [discriminate |]. split; [discriminate |].
    split; [intros p _; split; eexists; reflexivity |].
    split; intros e; (split; [discriminate | intros [H | [H _]]; discriminate]).
  - split; [auto |]. split; [discriminate |]. split; [discriminate |].
    split; intros e; (split; [intros H; injection H as <-; auto |]);
      (intros [H | [_ ->]]; [discriminate | reflexivity]).
  - split; [discriminate |].
    split; [intros e H; injection H as <-; auto |]. split; [discriminate |].
    split; intros e; (split; [intros H; injection H as <-; auto |]);
      (intros [H | [H _]]; [injection H as <-; reflexivity | discriminate]).
Qed.

Lemma quote_failures_witness :
  calculateBuyTokenAmount Example.nothing_listed Example.coder 5 Example.mint
  = Throw (Error "No pool found")
  /\ (exists quote : JS.number,
        calculateBuyTokenAmount Example.thin_pool Example.coder (-1000)
          Example.mint = Ok quote).
Proof.
  destruct (quote_failures Example.nothing_listed Example.coder Example.mint 5)
    as (Hnone & _).
  destruct (quote_failures Example.thin_pool Example.coder Example.mint (-1000))
    as (_ & _ & Hpool & _).
  split.
  - apply Hnone. reflexivity.
  - destruct thin_pool_best as (p & Hp & _).
    destruct (Hpool p Hp) as [Hbuy _]. exact Hbuy.
Defined.

(** X5: the slippage helpers do not check the tolerance.  For a non-negative
    amount a tolerance within [0, 10000] gives a bound between 0 and the
    amount; above 10000 the bound is zero or negative (the quotient is
    truncated toward zero); below 0 it is at least the amount. *)
Theorem slippage_outside_range (amount bps : Z) :
  0 <= amount ->
  (0 <= bps <= 10000 -> 0 <= calculateWithSlippageBuy amount bps <= amount)
  /\ (10000 < bps ->
      calculateWithSlippageBuy amount bps = - (amount * (bps - 10000) / 10000)
      /\ calculateWithSlippageBuy amount bps <= 0)
  /\ (bps < 0 -> amount <= calculateWithSlippageBuy amount bps)
  /\ calculateWithSlippageSell amount bps = calculateWithSlippageBuy amount bps.
Proof.
  intros Ha. split; [| split; [| split]].
  - intros Hb. rewrite slippage_floor by lia.
    split.
    + apply Z.div_pos; nia.
    + apply Z.div_le_upper_bound; nia.
  - intros Hb. unfold calculateWithSlippageBuy.
    replace (amount * (10000 - bps)) with (- (amount * (bps - 10000))) by ring.
    rewrite Z.quot_opp_l by lia.
    rewrite Z.quot_div_nonneg by nia.
    split; [reflexivity |].
    assert (0 <= amount * (bps - 10000) / 10000) by (apply Z.div_pos; nia).
    lia.
  - intros Hb. rewrite slippage_floor by lia.
    apply Z.div_le_lower_bound; nia.
  - reflexivity.
Qed.

Lemma slippage_outside_range_witness :
  calculateWithSlippageBuy 1 10001 = 0
  /\ calculateWithSlippageBuy 9803922 20000 = -9803922.
Proof.
  destruct (slippage_outside_range 1 10001) as (_ & H1 & _); [lia |].
  destruct (slippage_outside_range 9803922 20000) as (_ & H2 & _); [lia |].
  destruct H1 as [H1 _]; [lia |]. destruct H2 as [H2 _]; [lia |].
  rewrite H1, H2. split; reflexivity.
Defined.

(** * Instruction data *)

(** ** Hexadecimal text *)

Lemma unhex_digit_char (d : Z) : Hex.is_digit d -> Hex.unhex (Hex.digit_char d) = Some d.
Proof.
  unfold Hex.is_digit. intros H.
  assert (C : d = 0 \/ d = 1 \/ d = 2 \/ d = 3 \/ d = 4 \/ d = 5 \/ d = 6 \/ d = 7
              \/ d = 8 \/ d = 9 \/ d = 10 \/ d = 11 \/ d = 12 \/ d = 13 \/ d = 14
              \/ d = 15) by lia.
  repeat (destruct C as [-> | C]; [reflexivity |]). subst d. reflexivity.
Qed.

Lemma pow16_pos (k : nat) : 0 < 16 ^ Z.of_nat k.
Proof. apply Z.pow_pos_nonneg; lia. Qed.

Lemma pow16_succ (k : nat) : 16 ^ Z.of_nat (S k) = 16 * 16 ^ Z.of_nat k.
Proof. rewrite Nat2Z.inj_succ, Z.pow_succ_r by lia. reflexivity. Qed.

Lemma value_app (ds es : list Z) :
  Hex.value (ds ++ es) = Hex.value ds * 16 ^ Z.of_nat (List.length es) + Hex.value es.
Proof.
  induction ds as [| d ds IH]; cbn [Hex.value app]; [lia |].
  rewrite IH, length_app, Nat2Z.inj_add, Z.pow_add_r by lia. ring.
Qed.

Lemma value_bound (ds : list Z) :
  Forall Hex.is_digit ds -> 0 <= Hex.value ds < 16 ^ Z.of_nat (List.length ds).
Proof.
  induction 1 as [| d ds Hd _ IH]; cbn [Hex.value List.length]; [cbn; lia |].
  rewrite pow16_succ. pose proof (pow16_pos (List.length ds)).
  unfold Hex.is_digit in Hd. nia.
Qed.

(** With enough fuel [digits] writes [n] in base 16 in front of [acc]. *)
Lemma digits_spec (fuel : nat) :
  forall (n : Z) (acc : list Z),
    (0 < fuel)%nat ->
    0 <= n < 16 ^ Z.of_nat fuel ->
    Forall Hex.is_digit acc ->
    exists ds : list Z,
      Hex.digits fuel n acc = ds ++ acc
      /\ Forall Hex.is_digit ds
      /\ Hex.value ds = n
      /\ (0 < n -> 16 ^ (Z.of_nat (List.length ds) - 1) <= n)
      /\ ds <> [].
Proof.
  induction fuel as [| fuel IH]; intros n acc Hf Hn Hacc; [lia |].
  cbn [Hex.digits].
  pose proof (Z.mod_pos_bound n 16 ltac:(lia)) as Hm.
  pose proof (Z.div_mod n 16 ltac:(lia)) as Hdm.
  rewrite pow16_succ in Hn.
  destruct (Z.eqb_spec (n / 16) 0) as [E | N].
  - exists [n mod 16]. repeat split.
    + constructor; [exact Hm | constructor].
    + cbn. lia.
    + cbn. lia.
    + discriminate.
  - assert (Hq : 0 <= n / 16 < 16 ^ Z.of_nat fuel).
    { split; [apply Z.div_pos; lia | apply Z.div_lt_upper_bound; lia]. }
    assert (Hf' : (0 < fuel)%nat).
    { destruct fuel; [| lia]. cbn in Hq. lia. }
    destruct (IH (n / 16) (n mod 16 :: acc) Hf' Hq)
      as (ds & E & Hds & Hv & Hlo & Hne).
    { constructor; [exact Hm | exact Hacc]. }
    exists (ds ++ [n mod 16]). rewrite E, <- app_assoc. cbn [app].
    repeat split.
    + apply Forall_app. split; [exact Hds | constructor; [exact Hm | constructor]].
    + rewrite value_app, Hv. cbn. lia.
    + intros _. rewrite length_app. cbn [List.length].
      replace (Z.of_nat (List.length ds + 1) - 1)
        with (Z.succ (Z.of_nat (List.length ds) - 1)) by lia.
      assert (Hl : (1 <= List.length ds)%nat).
      { destruct ds; [contradiction | cbn; lia]. }
      rewrite Z.pow_succ_r by lia.
      assert (0 < n / 16) by lia. specialize (Hlo ltac:(lia)). lia.
    + destruct ds; discriminate.
Qed.

Lemma digits_of_spec (n : Z) :
  0 <= n ->
  Forall Hex.is_digit (Hex.digits_of n)
  /\ Hex.value (Hex.digits_of n) = n
  /\ (0 < n -> 16 ^ (Z.of_nat (List.length (Hex.digits_of n)) - 1) <= n)
  /\ Hex.digits_of n <> [].
Proof.
  intros Hn. unfold Hex.digits_of.
  destruct (digits_spec (S (Z.to_nat (Z.log2 n))) n []) as (ds & E & H).
  - lia.
  - split; [lia |].
    destruct (Z.eq_dec n 0) as [-> | N]; [cbn; lia |].
    pose proof (Z.log2_spec n ltac:(lia)) as [_ Hlog].
    pose proof (Z.log2_nonneg n) as Hl0.
    rewrite Nat2Z.inj_succ, Z2Nat.id by lia.
    eapply Z.lt_le_trans; [exact Hlog |].
    change 16 with (2 ^ 4). rewrite <- Z.pow_mul_r by lia.
    apply Z.pow_le_mono_r; lia.
  - constructor.
  - rewrite E, app_nil_r. exact H.
Qed.

(** ** Decoding hexadecimal text *)

Lemma byte_value (z : Z) : 0 <= z < 256 -> Z.of_N (Byte.to_N (Hex.byte z)) = z.
Proof.
  intros Hz. unfold Hex.byte. rewrite Z.mod_small by lia.
  destruct (Byte.of_N (Z.to_N z)) as [b |] eqn:E.
  - apply Byte.to_of_N in E. rewrite E. lia.
  - apply Byte.of_N_None_iff in E. lia.
Qed.

Lemma pairs_ind (A : Type) (P : list A -> Prop) :
  P [] -> (forall x, P [x]) ->
  (forall x y l, P l -> P (x :: y :: l)) ->
  forall l, P l.
Proof.
  intros H0 H1 H2 l.
  assert (H : P l /\ forall x, P (x :: l)).
  { induction l as [| y l [IH1 IH2]]; split; auto. }
  apply H.
Qed.

Lemma pow256_half (n : nat) :
  256 ^ Z.of_nat (Nat.div2 n)
  = if Nat.even n then 16 ^ Z.of_nat n else 16 ^ (Z.of_nat n - 1).
Proof.
  pose proof (Nat.div2_odd n) as H. rewrite <- Nat.negb_even in H.
  revert H. generalize (Nat.div2 n). intros h H.
  change 256 with (16 ^ 2). rewrite <- Z.pow_mul_r by lia.
  destruct (Nat.even n); cbn [negb Nat.b2n] in H; f_equal; lia.
Qed.

Lemma text_length (ds : list Z) : String.length (Hex.text ds) = List.length ds.
Proof.
  unfold Hex.text. induction ds as [| d ds IH]; cbn; [reflexivity | now rewrite IH].
Qed.

Lemma Buffer_from_text (ds : list Z) :
  Forall Hex.is_digit ds ->
  List.length (Hex.Buffer_from (Hex.text ds)) = Nat.div2 (List.length ds)
  /\ Hex.big_endian (Hex.Buffer_from (Hex.text ds))
     = (if Nat.even (List.length ds) then Hex.value ds else Hex.value ds / 16).
Proof.
  induction ds as [| d | d1 d2 ds IH] using pairs_ind; intros Hds.
  - split; reflexivity.
  - inversion Hds as [| ? ? Hd _]; subst. unfold Hex.is_digit in Hd.
    split; [reflexivity |]. cbn. rewrite Z.div_small by lia. reflexivity.
  - inversion Hds as [| ? ? Hd1 Hds']; subst.
    inversion Hds' as [| ? ? Hd2 Hds'']; subst.
    destruct (IH Hds'') as [IHl IHv].
    unfold Hex.text. cbn [map string_of_list_ascii Hex.Buffer_from].
    rewrite !unhex_digit_char by assumption.
    fold (Hex.text ds). cbn [List.length Hex.big_endian Nat.div2 Nat.even].
    unfold Hex.is_digit in Hd1, Hd2.
    rewrite byte_value by lia.
    split; [now rewrite IHl |].
    rewrite IHl, IHv, pow256_half.
    cbn [Hex.value List.length]. rewrite !pow16_succ.
    pose proof (pow16_pos (List.length ds)) as Hp.
    destruct (Nat.even (List.length ds)) eqn:Ev.
    + ring.
    + assert (Hl : (1 <= List.length ds)%nat).
      { destruct ds; [discriminate | cbn; lia]. }
      assert (E16 : 16 ^ Z.of_nat (List.length ds)
                    = 16 * 16 ^ (Z.of_nat (List.length ds) - 1)).
      { rewrite <- Z.pow_succ_r by lia. f_equal. lia. }
      rewrite E16. set (P := 16 ^ (Z.of_nat (List.length ds) - 1)).
      transitivity (((d1 * (16 * P) + d2 * P) * 16 + Hex.value ds) / 16).
      * rewrite Z.div_add_l by lia. ring.
      * f_equal. ring.
Qed.

Lemma string_of_list_ascii_app (l1 l2 : list ascii) :
  string_of_list_ascii (l1 ++ l2)
  = (string_of_list_ascii l1 ++ string_of_list_ascii l2)%string.
Proof.
  induction l1 as [| c l1 IH]; cbn; [reflexivity | now rewrite IH].
Qed.

Lemma padStart_text (ds : list Z) (n : nat) :
  Hex.padStart (Hex.text ds) n "0"%char
  = Hex.text (repeat 0 (n - List.length ds) ++ ds).
Proof.
  unfold Hex.padStart. rewrite text_length. unfold Hex.text.
  rewrite map_app, string_of_list_ascii_app, map_repeat. reflexivity.
Qed.

Lemma value_zeros (k : nat) : Hex.value (repeat 0 k) = 0.
Proof. induction k as [| k IH]; cbn [repeat Hex.value]; lia. Qed.

Lemma zeros_are_digits (k : nat) : Forall Hex.is_digit (repeat 0 k).
Proof.
  induction k; cbn [repeat]; constructor; auto. unfold Hex.is_digit. lia.
Qed.

(** The field of a non-negative amount, from the number of its digits. *)
Lemma amount_field_nonneg (a : Z) :
  0 <= a ->
  let n := Nat.max 16 (String.length (Hex.toString16 a)) in
  List.length (amount_field a) = Nat.div2 n
  /\ Hex.big_endian (amount_field a) = (if Nat.even n then a else a / 16).
Proof.
  intros Ha n. subst n. unfold amount_field, Hex.toString16.
  destruct (Z.ltb_spec a 0) as [N | _]; [lia |].
  destruct (digits_of_spec a Ha) as (Hds & Hv & _ & _).
  rewrite padStart_text, text_length.
  set (ds := Hex.digits_of a) in *.
  destruct (Buffer_from_text (repeat 0 (16 - List.length ds) ++ ds)) as [Hl Hval].
  { apply Forall_app. split; [apply zeros_are_digits | exact Hds]. }
  rewrite length_app, repeat_length in Hl, Hval.
  replace (16 - List.length ds + List.length ds)%nat
    with (Nat.max 16 (List.length ds)) in Hl, Hval by lia.
  rewrite value_app, value_zeros, Hv in Hval.
  split; [exact Hl | rewrite Hval; reflexivity].
Qed.

Lemma toString16_length_u64 (a : Z) :
  0 <= a < 2 ^ 64 -> (String.length (Hex.toString16 a) <= 16)%nat.
Proof.
  intros [Ha Hlt]. unfold Hex.toString16.
  destruct (Z.ltb_spec a 0) as [N | _]; [lia |].
  rewrite text_length.
  destruct (digits_of_spec a Ha) as (_ & _ & Hlo & Hne).
  destruct (Z.eq_dec a 0) as [-> | Hpos]; [cbn; lia |].
  specialize (Hlo ltac:(lia)).
  destruct (Nat.le_gt_cases (List.length (Hex.digits_of a)) 16) as [L | G]; auto.
  assert (16 ^ 16 <= 16 ^ (Z.of_nat (List.length (Hex.digits_of a)) - 1))
    by (apply Z.pow_le_mono_r; lia).
  change (16 ^ 16) with (2 ^ 64) in *. lia.
Qed.

Lemma toString16_length_big (a : Z) :
  2 ^ 64 <= a -> (17 <= String.length (Hex.toString16 a))%nat.
Proof.
  intros Ha. unfold Hex.toString16.
  assert (H0 : 0 <= a) by (change (2 ^ 64) with 18446744073709551616 in Ha; lia).
  destruct (Z.ltb_spec a 0) as [N | _]; [lia |].
  rewrite text_length.
  destruct (digits_of_spec a H0) as (Hds & Hv & _ & _).
  pose proof (value_bound _ Hds) as Hb. rewrite Hv in Hb.
  destruct (Nat.le_gt_cases 17 (List.length (Hex.digits_of a))) as [L | G]; auto.
  assert (16 ^ Z.of_nat (List.length (Hex.digits_of a)) <= 16 ^ 16)
    by (apply Z.pow_le_mono_r; lia).
  change (16 ^ 16) with (2 ^ 64) in *. lia.
Qed.

Lemma Buffer_from_zeros_minus (k : nat) (rest : string) :
  Hex.Buffer_from (string_of_list_ascii (repeat "0"%char k) ++ String "-" rest)
  = repeat Byte.x00 (Nat.div2 k).
Proof.
  assert (H : forall l : list unit,
             Hex.Buffer_from
               (string_of_list_ascii (repeat "0"%char (List.length l))
                ++ String "-" rest)
             = repeat Byte.x00 (Nat.div2 (List.length l))).
  { intros l. induction l as [| x | x y l IH] using pairs_ind.
    - cbn. destruct rest; reflexivity.
    - reflexivity.
    - cbn [List.length repeat string_of_list_ascii append Hex.Buffer_from Nat.div2].
      change (Hex.unhex "0") with (Some 0). cbn iota. rewrite IH. reflexivity. }
  specialize (H (repeat tt k)). now rewrite repeat_length in H.
Qed.

Lemma big_endian_zeros (k : nat) : Hex.big_endian (repeat Byte.x00 k) = 0.
Proof. induction k as [| k IH]; cbn [repeat Hex.big_endian]; [| rewrite IH]; reflexivity. Qed.

(** X6: for amounts in the range of an unsigned 64-bit integer the data of a
    swap instruction is 24 bytes: the 8 bytes of the discriminator, then the
    two amounts in 8 bytes each, most significant byte first, in the order
    of the arguments. *)
Theorem instruction_data_layout
    (getAssociatedTokenAddressSync : PublicKey -> PublicKey -> result PublicKey)
    (poolId user mint ata : PublicKey) (amount1 amount2 : Z) :
  getAssociatedTokenAddressSync mint user = Ok ata ->
  0 <= amount1 < 2 ^ 64 ->
  0 <= amount2 < 2 ^ 64 ->
  exists buy sell : TransactionInstruction,
    createBuyInstruction getAssociatedTokenAddressSync poolId user mint
      amount1 amount2 = Ok buy
    /\ createSellInstruction getAssociatedTokenAddressSync poolId user mint
         amount1 amount2 = Ok sell
    /\ List.length (data buy) = 24%nat /\ List.length (data sell) = 24%nat
    /\ firstn 8 (data buy) = INSTRUCTION_DISCRIMINATORS.BUY
    /\ firstn 8 (data sell) = INSTRUCTION_DISCRIMINATORS.SELL
    /\ Hex.big_endian (firstn 8 (skipn 8 (data buy))) = amount1
    /\ Hex.big_endian (skipn 16 (data buy)) = amount2
    /\ Hex.big_endian (firstn 8 (skipn 8 (data sell))) = amount1
    /\ Hex.big_endian (skipn 16 (data sell)) = amount2.
Proof.
  intros Hata H1 H2.
  unfold createBuyInstruction, createSellInstruction. rewrite Hata. cbn [bind].
  do 2 eexists. split; [reflexivity |]. split; [reflexivity |].
  cbn [data Hex.Buffer_concat List.concat].
  assert (F : forall a, 0 <= a < 2 ^ 64 ->
             exists b0 b1 b2 b3 b4 b5 b6 b7,
               amount_field a = [b0; b1; b2; b3; b4; b5; b6; b7]
               /\ Hex.big_endian [b0; b1; b2; b3; b4; b5; b6; b7] = a).
  { intros a Ha.
    destruct (amount_field_nonneg a ltac:(lia)) as [Hl Hv].
    pose proof (toString16_length_u64 a Ha) as Hn.
    rewrite Nat.max_l in Hl, Hv by exact Hn.
    change (Nat.div2 16) with 8%nat in Hl.
    change (Nat.even 16) with true in Hv. cbv iota in Hv.
    destruct (amount_field a) as [| b0 [| b1 [| b2 [| b3 [| b4 [| b5 [| b6 [| b7 [| b8 l]]]]]]]]];
      try discriminate.
    do 8 eexists. split; [reflexivity | exact Hv]. }
  destruct (F amount1 H1) as (a0 & a1 & a2 & a3 & a4 & a5 & a6 & a7 & -> & V1).
  destruct (F amount2 H2) as (c0 & c1 & c2 & c3 & c4 & c5 & c6 & c7 & -> & V2).
  repeat split; assumption.
Qed.

Lemma instruction_data_layout_witness :
  exists buy : TransactionInstruction,
    createBuyInstruction (fun _ _ => Ok "Ata") "PoolA" "User" Example.mint
      9313725 1000000000 = Ok buy
    /\ List.length (data buy) = 24%nat
    /\ Hex.big_endian (firstn 8 (skipn 8 (data buy))) = 9313725.
Proof.
  destruct (instruction_data_layout (fun _ _ => Ok "Ata") "PoolA" "User"
              Example.mint "Ata" 9313725 1000000000 eq_refl)
    as (buy & _ & Hbuy & _ & Hlen & _ & _ & _ & Hv & _); [lia | lia |].
  exists buy. auto.
Defined.

(** X7: an amount of 2^64 or more is not rejected.  With [n] hexadecimal
    digits its field takes [n / 2] bytes, at least 8: for an odd [n] the last
    digit is lost and the field reads [amount / 16]; for an even [n] the
    field is longer than 8 bytes. *)
Theorem instruction_amount_overflow
    (getAssociatedTokenAddressSync : PublicKey -> PublicKey -> result PublicKey)
    (poolId user mint ata : PublicKey) (amount1 amount2 : Z) :
  getAssociatedTokenAddressSync mint user = Ok ata ->
  2 ^ 64 <= amount1 ->
  exists (buy : TransactionInstruction) (n : nat),
    createBuyInstruction getAssociatedTokenAddressSync poolId user mint
      amount1 amount2 = Ok buy
    /\ data buy = INSTRUCTION_DISCRIMINATORS.BUY ++ amount_field amount1
                  ++ amount_field amount2
    /\ n = String.length (Hex.toString16 amount1)
    /\ (17 <= n)%nat
    /\ List.length (amount_field amount1) = Nat.div2 n
    /\ (Nat.even n = false ->
        List.length (amount_field amount1) = Nat.div2 (n - 1)
        /\ Hex.big_endian (amount_field amount1) = amount1 / 16)
    /\ (Nat.even n = true ->
        (9 <= List.length (amount_field amount1))%nat
        /\ Hex.big_endian (amount_field amount1) = amount1).
Proof.
  intros Hata Ha.
  unfold createBuyInstruction. rewrite Hata. cbn [bind].
  eexists. exists (String.length (Hex.toString16 amount1)).
  split; [reflexivity |].
  cbn [data Hex.Buffer_concat List.concat]. rewrite app_nil_r.
  split; [reflexivity |]. split; [reflexivity |].
  pose proof (toString16_length_big amount1 Ha) as Hn.
  split; [exact Hn |].
  assert (H0 : 0 <= amount1)
    by (change (2 ^ 64) with 18446744073709551616 in Ha; lia).
  destruct (amount_field_nonneg amount1 H0) as [Hl Hv].
  rewrite Nat.max_r in Hl, Hv by lia.
  set (n := String.length (Hex.toString16 amount1)) in *.
  split; [exact Hl |].
  pose proof (Nat.div2_odd n) as Hodd. rewrite <- Nat.negb_even in Hodd.
  pose proof (Nat.div2_odd (n - 1)) as Hodd'. rewrite <- Nat.negb_even in Hodd'.
  split; intros Ev; rewrite Ev in *; cbn [negb Nat.b2n] in Hodd.
  - split; [| exact Hv]. rewrite Hl.
    destruct (Nat.even (n - 1)); cbn [negb Nat.b2n] in Hodd'; lia.
  - split; [| exact Hv]. rewrite Hl. lia.
Qed.

Lemma instruction_amount_overflow_witness :
  exists buy : TransactionInstruction,
    createBuyInstruction (fun _ _ => Ok "Ata") "PoolA" "User" Example.mint
      (2 ^ 64) 1 = Ok buy
    /\ List.length (amount_field (2 ^ 64)) = 8%nat
    /\ Hex.big_endian (amount_field (2 ^ 64)) = 2 ^ 60.
Proof.
  destruct (instruction_amount_overflow (fun _ _ => Ok "Ata") "PoolA" "User"
              Example.mint "Ata" (2 ^ 64) 1 eq_refl)
    as (buy & n & Hbuy & _ & Hn & _ & _ & Hodd & _); [lia |].
  exists buy. split; [exact Hbuy |].
  destruct Hodd as [Hl Hv]; [rewrite Hn; reflexivity |].
  rewrite Hl, Hv, Hn. split; reflexivity.
Defined.

(** X8: a negative amount is not rejected either: its field is fewer than 8
    bytes, all of them zero, because decoding stops at the minus sign.  The
    data are then the discriminator, those [k] bytes and the field of the
    other amount: fewer than 24 bytes when the other amount is within 64
    bits (a longer second field can make up the length). *)
Theorem instruction_amount_negative
    (getAssociatedTokenAddressSync : PublicKey -> PublicKey -> result PublicKey)
    (poolId user mint ata : PublicKey) (amount1 amount2 : Z) :
  getAssociatedTokenAddressSync mint user = Ok ata ->
  amount1 < 0 ->
  exists (buy : TransactionInstruction) (k : nat),
    createBuyInstruction getAssociatedTokenAddressSync poolId user mint
      amount1 amount2 = Ok buy
    /\ data buy = INSTRUCTION_DISCRIMINATORS.BUY ++ repeat Byte.x00 k
                  ++ amount_field amount2
    /\ amount_field amount1 = repeat Byte.x00 k
    /\ (k <= 7)%nat
    /\ List.length (data buy)
       = (8 + k + List.length (amount_field amount2))%nat
    /\ (0 <= amount2 < 2 ^ 64 ->
        List.length (data buy) = (16 + k)%nat
        /\ (List.length (data buy) < 24)%nat).
Proof.
  intros Hata Ha.
  unfold createBuyInstruction. rewrite Hata. cbn [bind].
  assert (F : exists k, amount_field amount1 = repeat Byte.x00 k /\ (k <= 7)%nat).
  { unfold amount_field, Hex.toString16, Hex.padStart.
    destruct (Z.ltb_spec amount1 0) as [_ | N]; [| lia].
    rewrite Buffer_from_zeros_minus. eexists. split; [reflexivity |].
    cbn [String.length].
    generalize (String.length (Hex.text (Hex.digits_of (- amount1)))). intros m.
    pose proof (Nat.div2_odd (16 - S m)) as H.
    destruct (Nat.odd (16 - S m)); cbn [Nat.b2n] in H; lia. }
  destruct F as (k & Hk & Hle).
  eexists. exists k. split; [reflexivity |].
  cbn [data Hex.Buffer_concat List.concat]. rewrite app_nil_r, Hk.
  assert (Hlen : List.length
                   (INSTRUCTION_DISCRIMINATORS.BUY ++ repeat Byte.x00 k
                    ++ amount_field amount2)
                 = (8 + k + List.length (amount_field amount2))%nat).
  { rewrite !length_app, repeat_length.
    change (List.length INSTRUCTION_DISCRIMINATORS.BUY) with 8%nat. lia. }
  split; [reflexivity |]. split; [reflexivity |]. split; [exact Hle |].
  split; [exact Hlen |].
  intros H2. rewrite Hlen.
  destruct (amount_field_nonneg amount2 ltac:(lia)) as [Hl _].
  rewrite Nat.max_l in Hl by (apply toString16_length_u64; exact H2).
  change (Nat.div2 16) with 8%nat in Hl. rewrite Hl. lia.
Qed.

Lemma instruction_amount_negative_witness :
  exists buy : TransactionInstruction,
    createBuyInstruction (fun _ _ => Ok "Ata") "PoolA" "User" Example.mint
      (-9803922) 1000000000 = Ok buy
    /\ List.length (data buy) = 20%nat.
Proof.
  destruct (instruction_amount_negative (fun _ _ => Ok "Ata") "PoolA" "User"
              Example.mint "Ata" (-9803922) 1000000000 eq_refl)
    as (buy & k & Hbuy & _ & Hk & _ & _ & Hlen); [lia |].
  exists buy. split; [exact Hbuy |].
  destruct Hlen as [Hlen _]; [lia |]. rewrite Hlen.
  assert (E : k = 4%nat).
  { vm_compute in Hk.
    destruct k as [| [| [| [| [| k]]]]]; cbn in Hk;
      try discriminate Hk; reflexivity. }
  rewrite E. reflexivity.
Defined.

(** * Trading *)

Section SendFacts.

Variable getLatestBlockhash : result string.
Variable compileToV0Message : TransactionMessage -> result unit.
Variable rpc_sendTransaction : VersionedTransaction -> result string.

Let send := sendTransaction getLatestBlockhash compileToV0Message rpc_sendTransaction.

(** X9: [sendTransaction] never throws.  It hands a transaction to the node
    exactly when the blockhash request and the compilation succeed: one
    transaction, paid and signed by the signer, with the given instructions
    and that blockhash.  It reports success exactly when the node accepted
    that transaction, with the signature of the node, and otherwise reports
    the error of the step that failed. *)
Theorem sendTransaction_outcomes (instrs : list Instruction) (signer : PublicKey)
    (outcome : TransactionResult.t) (sent : list VersionedTransaction) :
  send instrs signer = (outcome, sent) ->
  let transaction := fun blockhash : string =>
    {| message := {| payerKey := signer;
                     recentBlockhash := blockhash;
                     instructions := instrs |};
       signers := [signer] |} in
  (forall e, getLatestBlockhash = Throw e -> outcome = failed e /\ sent = [])
  /\ (forall blockhash e,
        getLatestBlockhash = Ok blockhash ->
        compileToV0Message (message (transaction blockhash)) = Throw e ->
        outcome = failed e /\ sent = [])
  /\ (forall blockhash u,
        getLatestBlockhash = Ok blockhash ->
        compileToV0Message (message (transaction blockhash)) = Ok u ->
        sent = [transaction blockhash]
        /\ (forall signature,
              rpc_sendTransaction (transaction blockhash) = Ok signature ->
              outcome = succeeded signature)
        /\ (forall e,
              rpc_sendTransaction (transaction blockhash) = Throw e ->
              outcome = failed e))
  /\ (TransactionResult.success outcome = true
      <-> exists tx signature,
            sent = [tx] /\ rpc_sendTransaction tx = Ok signature)
  /\ (sent <> []
      <-> exists blockhash u,
            getLatestBlockhash = Ok blockhash
            /\ compileToV0Message (message (transaction blockhash)) = Ok u).
Proof.
  intros H transaction. unfold send, sendTransaction in H.
  fold (transaction) in H.
  destruct getLatestBlockhash as [blockhash | e0] eqn:Hb.
  2:{ injection H as <- <-.
      split; [intros e E; injection E as <-; auto |].
      split; [discriminate |]. split; [discriminate |].
      split; split; try discriminate.
      - intros (tx & sg & E & _). discriminate.
      - intros E. now contradiction E.
      - intros (bh & u & E & _). discriminate. }
  change {| payerKey := signer; recentBlockhash := blockhash; instructions := instrs |}
    with (message (transaction blockhash)) in H.
  destruct (compileToV0Message (message (transaction blockhash))) as [u | e1] eqn:Hc.
  2:{ injection H as <- <-.
      split; [discriminate |].
      split; [intros bh e E E'; injection E as <-; rewrite Hc in E';
              injection E' as <-; auto |].
      split; [intros bh u E E'; injection E as <-; congruence |].
      split; split; try discriminate.
      - intros (tx & sg & E & _). discriminate.
      - intros E. now contradiction E.
      - intros (bh & u & E & E'). injection E as <-. congruence. }
  change {| message := message (transaction blockhash); signers := [signer] |}
    with (transaction blockhash) in H.
  assert (Hsent : sent = [transaction blockhash]).
  { destruct (rpc_sendTransaction (transaction blockhash)); now injection H as _ <-. }
  split; [discriminate |].
  split; [intros bh e E E'; injection E as <-; congruence |].
  split.
  { intros bh u' E _. injection E as <-. split; [exact Hsent |].
    split.
    - intros sg Hs. rewrite Hs in H. now injection H as <- _.
    - intros e Hs. rewrite Hs in H. now injection H as <- _. }
  split.
  - destruct (rpc_sendTransaction (transaction blockhash)) as [sg | e2] eqn:Hr;
      injection H as <- _; rewrite Hsent.
    + split; [intros _; eauto | reflexivity].
    + split; [discriminate |].
      intros (tx & sg & E & Hok). injection E as <-. congruence.
  - rewrite Hsent. split; [intros _; eauto | discriminate].
Qed.

End SendFacts.

Section TradingFacts.

Variable connection : Connection.
Variable connection_at_quote : Connection.
Variable coder : Coder.
Variable getAssociatedTokenAddressSync : PublicKey -> PublicKey -> result PublicKey.
Variable wallet : PublicKey.
Variable getLatestBlockhash : result string.
Variable compileToV0Message : TransactionMessage -> result unit.
Variable rpc_sendTransaction : VersionedTransaction -> result string.
Variable getTokenAccountBalance : PublicKey -> result (option JS.number).
Variable number_toString : JS.number -> string.

Let BigInt' := BigInt number_toString.
Let buy' :=
  buy connection connection_at_quote coder getAssociatedTokenAddressSync wallet
    getLatestBlockhash compileToV0Message rpc_sendTransaction number_toString.
Let sellExactAmount' :=
  sellExactAmount connection connection_at_quote coder
    getAssociatedTokenAddressSync wallet getLatestBlockhash compileToV0Message
    rpc_sendTransaction number_toString.
Let sellPercentage' :=
  sellPercentage connection connection_at_quote coder
    getAssociatedTokenAddressSync wallet getLatestBlockhash compileToV0Message
    rpc_sendTransaction getTokenAccountBalance number_toString.
Let getTokenBalance' :=
  getTokenBalance getAssociatedTokenAddressSync getTokenAccountBalance.

(** The quotes are numbers, and the slippage helpers multiply them by a
    bigint: the preparation of a swap never gets past that product. *)
Lemma buy_instructions_throw (params : BuyParams) :
  exists e,
    buy_instructions connection connection_at_quote coder
      getAssociatedTokenAddressSync wallet number_toString params = Throw e
    /\ (forall pool lamports bought basisPoints,
          getBestPool connection coder (buy_mint params) = Ok (Some pool) ->
          BigInt' (number_mul (solAmount params) LAMPORTS_PER_SOL) = Ok lamports ->
          calculateBuyTokenAmount connection_at_quote coder lamports
            (buy_mint params) = Ok bought ->
          BigInt' (slippage_or_default (buy_slippage params)) = Ok basisPoints ->
          e = TypeError "Cannot mix BigInt and other types, use explicit conversions").
Proof.
  unfold buy_instructions. fold BigInt'.
  destruct (getBestPool connection coder (buy_mint params))
    as [[pool |] | e] eqn:Hpool; cbn [bind];
    [| eexists; split; [reflexivity | discriminate] ..].
  destruct (BigInt' (number_mul (solAmount params) LAMPORTS_PER_SOL))
    as [lamports | e] eqn:Hl; cbn [bind];
    [| eexists; split; [reflexivity | discriminate]].
  destruct (calculateBuyTokenAmount connection_at_quote coder lamports
              (buy_mint params)) as [bought | e] eqn:Hq; cbn [bind];
    [| eexists; split; [reflexivity | intros; congruence]].
  destruct (BigInt' (slippage_or_default (buy_slippage params)))
    as [basisPoints | e] eqn:Hs; cbn [bind];
    [| eexists; split; [reflexivity | discriminate]].
  eexists. split; reflexivity.
Qed.

Lemma sell_instructions_throw (params : SellParams) :
  exists e,
    sell_instructions connection connection_at_quote coder
      getAssociatedTokenAddressSync number_toString params = Throw e
    /\ (forall amount pool tokens quoted basisPoints,
          exactAmount params = Some amount ->
          JS.truthy amount = true ->
          getBestPool connection coder (sell_mint params) = Ok (Some pool) ->
          BigInt' (number_mul amount pow10_DECIMALS) = Ok tokens ->
          calculateSellSolAmount connection_at_quote coder tokens
            (sell_mint params) = Ok quoted ->
          BigInt' (slippage_or_default (sell_slippage params)) = Ok basisPoints ->
          e = TypeError "Cannot mix BigInt and other types, use explicit conversions").
Proof.
  unfold sell_instructions. fold BigInt'.
  destruct (exactAmount params) as [amount |] eqn:Ha; cbn [number_missing];
    [| eexists; split; [reflexivity | discriminate]].
  destruct (JS.truthy amount) eqn:Ht; cbn [negb];
    [| eexists; split; [reflexivity | intros; congruence]].
  destruct (getBestPool connection coder (sell_mint params))
    as [[pool |] | e] eqn:Hpool; cbn [bind];
    [| eexists; split; [reflexivity | intros; discriminate] ..].
  destruct (BigInt' (number_mul amount pow10_DECIMALS)) as [tokens | e] eqn:Hl;
    cbn [bind];
    [| eexists; split; [reflexivity | intros; congruence]].
  destruct (calculateSellSolAmount connection_at_quote coder tokens
              (sell_mint params)) as [quoted | e] eqn:Hq; cbn [bind];
    [| eexists; split; [reflexivity | intros; congruence]].
  destruct (BigInt' (slippage_or_default (sell_slippage params)))
    as [basisPoints | e] eqn:Hs; cbn [bind];
    [| eexists; split; [reflexivity | intros; discriminate]].
  eexists. split; reflexivity.
Qed.

(** X10: [buy] never hands a transaction to the node.  The quote is a
    number and [calculateWithSlippageBuy] multiplies it by a bigint, so every
    buy that found a pool, converted its amounts and got a quote ends with
    the [TypeError] of that product; every other buy has failed before. *)
Theorem buy_never_sends (params : BuyParams) :
  snd (buy' params) = []
  /\ TransactionResult.success (fst (buy' params)) = false
  /\ (forall pool lamports bought basisPoints,
        getBestPool connection coder (buy_mint params) = Ok (Some pool) ->
        BigInt' (number_mul (solAmount params) LAMPORTS_PER_SOL) = Ok lamports ->
        calculateBuyTokenAmount connection_at_quote coder lamports
          (buy_mint params) = Ok bought ->
        BigInt' (slippage_or_default (buy_slippage params)) = Ok basisPoints ->
        buy' params
        = (failed (TypeError
                     "Cannot mix BigInt and other types, use explicit conversions"),
           [])).
Proof.
  unfold buy', buy.
  destruct (buy_instructions_throw params) as (e & -> & He). cbn [fst snd].
  split; [reflexivity |]. split; [reflexivity |].
  intros pool lamports bought basisPoints H1 H2 H3 H4.
  now rewrite (He pool lamports bought basisPoints H1 H2 H3 H4).
Qed.

(** X11: what [buy] reports when it stops before sending: the missing pool
    by name, a failed discovery by its own message, and a SOL amount that is
    not a whole number of lamports by the message of [BigInt]. *)
Theorem buy_failure_reports (params : BuyParams) :
  (getBestPool connection coder (buy_mint params) = Ok None ->
   buy' params
   = (failed (Error ("No pool found for token " ++ toBase58 (buy_mint params))), []))
  /\ (forall e, getBestPool connection coder (buy_mint params) = Throw e ->
        buy' params = (failed e, []))
  /\ (forall pool e,
        getBestPool connection coder (buy_mint params) = Ok (Some pool) ->
        BigInt' (number_mul (solAmount params) LAMPORTS_PER_SOL) = Throw e ->
        buy' params = (failed e, [])
        /\ exists text,
             e = RangeError ("The number " ++ text
                   ++ " cannot be converted to a BigInt because it is not an integer")).
Proof.
  unfold buy', buy, buy_instructions. fold BigInt'.
  split; [| split].
  - intros ->. reflexivity.
  - intros e ->. reflexivity.
  - intros pool e -> He. rewrite He. cbn [bind]. split; [reflexivity |].
    unfold BigInt', BigInt in He.
    destruct (number_mul (solAmount params) LAMPORTS_PER_SOL) as [s | s | | s m e2];
      try discriminate; try (injection He as <-; eexists; reflexivity).
    destruct (0 <=? e2); [discriminate |].
    destruct (Z.pos m mod 2 ^ (- e2) =? 0); [discriminate |].
    injection He as <-. eexists. reflexivity.
Qed.

(** X12: [sellExactAmount] refuses an amount that is missing, zero or NaN
    before it asks the node anything, whatever the state of the connection. *)
Theorem sell_requires_amount (params : SellParams) :
  exactAmount params = None
  \/ (exists s, exactAmount params = Some (S754_zero s))
  \/ exactAmount params = Some S754_nan ->
  sellExactAmount' params
  = (failed (Error "Exact amount is required for sellExactAmount"), []).
Proof.
  intros H. unfold sellExactAmount', sellExactAmount, sell_instructions.
  destruct H as [-> | [[s ->] | ->]]; reflexivity.
Qed.

(** X13: [sellExactAmount] never hands a transaction to the node, and
    neither does [sellPercentage], which ends in it.  The quote is a number
    and [calculateWithSlippageSell] multiplies it by a bigint, so a sale that
    found a pool, converted its amounts and got a quote ends with the
    [TypeError] of that product; every other sale has failed before. *)
Theorem sell_never_sends (params : SellParams) :
  snd (sellExactAmount' params) = []
  /\ TransactionResult.success (fst (sellExactAmount' params)) = false
  /\ snd (sellPercentage' params) = []
  /\ TransactionResult.success (fst (sellPercentage' params)) = false
  /\ (forall amount pool tokens quoted basisPoints,
        exactAmount params = Some amount ->
        JS.truthy amount = true ->
        getBestPool connection coder (sell_mint params) = Ok (Some pool) ->
        BigInt' (number_mul amount pow10_DECIMALS) = Ok tokens ->
        calculateSellSolAmount connection_at_quote coder tokens
          (sell_mint params) = Ok quoted ->
        BigInt' (slippage_or_default (sell_slippage params)) = Ok basisPoints ->
        sellExactAmount' params
        = (failed (TypeError
                     "Cannot mix BigInt and other types, use explicit conversions"),
           [])).
Proof.
  assert (Hexact : forall q : SellParams,
             snd (sellExactAmount' q) = []
             /\ TransactionResult.success (fst (sellExactAmount' q)) = false).
  { intros q. unfold sellExactAmount', sellExactAmount.
    destruct (sell_instructions_throw q) as (e & -> & _). split; reflexivity. }
  destruct (Hexact params) as [H1 H2].
  split; [exact H1 |]. split; [exact H2 |].
  assert (Hpct : snd (sellPercentage' params) = []
                 /\ TransactionResult.success (fst (sellPercentage' params)) = false).
  { unfold sellPercentage', sellPercentage.
    destruct (_ || _); [split; reflexivity |].
    destruct (number_is_zero _); [split; reflexivity |].
    apply Hexact. }
  destruct Hpct as [H3 H4].
  split; [exact H3 |]. split; [exact H4 |].
  intros amount pool tokens quoted basisPoints E1 E2 E3 E4 E5 E6.
  unfold sellExactAmount', sellExactAmount.
  destruct (sell_instructions_throw params) as (e & -> & He).
  now rewrite (He amount pool tokens quoted basisPoints E1 E2 E3 E4 E5 E6).
Qed.

(** X14: [sellPercentage] refuses a percentage that is 0 or less or above
    100; within the range it reports ['No tokens to sell'] when the balance
    is 0 and also whenever the balance could not be read, because
    [getTokenBalance] answers every failure with 0; otherwise it sells
    [balance * percentage / 100] through [sellExactAmount]. *)
Theorem sellPercentage_checks (params : SellParams) :
  let share := match percentage params with Some p => p | None => JS.Number 100 end in
  (JS.le share JS.zero = true \/ JS.gt share (JS.Number 100) = true ->
   sellPercentage' params
   = (failed (Error "Percentage must be between 0 and 100"), []))
  /\ (JS.le share JS.zero = false -> JS.gt share (JS.Number 100) = false ->
      ((exists e, getAssociatedTokenAddressSync (sell_mint params) (sell_user params)
                  = Throw e)
       \/ (exists ata,
             getAssociatedTokenAddressSync (sell_mint params) (sell_user params)
             = Ok ata
             /\ ((exists e, getTokenAccountBalance ata = Throw e)
                 \/ getTokenAccountBalance ata = Ok None
                 \/ (exists s, getTokenAccountBalance ata = Ok (Some (S754_zero s)))
                 \/ getTokenAccountBalance ata = Ok (Some S754_nan))) ->
       sellPercentage' params = (failed (Error "No tokens to sell"), []))
      /\ (number_is_zero (getTokenBalance' (sell_mint params) (sell_user params))
          = false ->
          sellPercentage' params
          = sellExactAmount'
              {| sell_mint := sell_mint params;
                 sell_user := sell_user params;
                 percentage := None;
                 exactAmount :=
                   Some (JS.div
                           (number_mul
                              (getTokenBalance' (sell_mint params) (sell_user params))
                              share)
                           (JS.Number 100));
                 sell_slippage :=
                   Some (slippage_or_default (sell_slippage params)) |})).
Proof.
  intros share. unfold sellPercentage', sellPercentage. fold share.
  split.
  - intros [H | H]; rewrite H; [reflexivity | now rewrite orb_true_r].
  - intros H1 H2. rewrite H1, H2. cbn [orb].
    split.
    + intros H.
      assert (Hz : getTokenBalance getAssociatedTokenAddressSync getTokenAccountBalance
                     (sell_mint params) (sell_user params) = JS.zero).
      { unfold getTokenBalance.
        destruct H as [[e ->] | (ata & -> & [[e ->] | [-> | [[s ->] | ->]]])];
          reflexivity. }
      rewrite Hz. reflexivity.
    + intros Hnz. unfold getTokenBalance' in *. rewrite Hnz. reflexivity.
Qed.

(** X15: a percentage that is NaN passes the range check of [sellPercentage];
    with a balance that is not 0 the amount to sell is then NaN, and the
    request ends in the refusal of [sellExactAmount]. *)
Theorem sellPercentage_of_nan (params : SellParams) :
  percentage params = Some S754_nan ->
  number_is_zero (getTokenBalance' (sell_mint params) (sell_user params)) = false ->
  sellPercentage' params
  = (failed (Error "Exact amount is required for sellExactAmount"), []).
Proof.
  intros Hp Hnz.
  unfold sellPercentage', sellPercentage. rewrite Hp.
  change (JS.le S754_nan JS.zero) with false.
  change (JS.gt S754_nan (JS.Number 100)) with false. cbn [orb].
  unfold getTokenBalance' in Hnz. rewrite Hnz.
  replace (JS.div
             (number_mul
                (getTokenBalance getAssociatedTokenAddressSync getTokenAccountBalance
                   (sell_mint params) (sell_user params)) S754_nan)
             (JS.Number 100)) with S754_nan.
  - reflexivity.
  - unfold number_mul. destruct (getTokenBalance _ _ _ _); reflexivity.
Qed.

End TradingFacts.

Lemma sendTransaction_outcomes_witness :
  exists tx : VersionedTransaction,
    sendTransaction (Ok "Blockhash-1") Demo.compileToV0Message
      Demo.rpc_sendTransaction [setComputeUnitLimit 70000] Demo.wallet
    = (succeeded "Signature-1", [tx])
    /\ payerKey (message tx) = Demo.wallet
    /\ recentBlockhash (message tx) = "Blockhash-1".
Proof.
  set (run := sendTransaction (Ok "Blockhash-1") Demo.compileToV0Message
                Demo.rpc_sendTransaction [setComputeUnitLimit 70000] Demo.wallet).
  pose proof (sendTransaction_outcomes (Ok "Blockhash-1") Demo.compileToV0Message
                Demo.rpc_sendTransaction [setComputeUnitLimit 70000] Demo.wallet
                (fst run) (snd run) (surjective_pairing run)) as H.
  cbv zeta in H. destruct H as (_ & _ & Hsend & _).
  destruct (Hsend "Blockhash-1" tt eq_refl eq_refl) as (Hsent & Hok & _).
  exists {| message := {| payerKey := Demo.wallet;
                          recentBlockhash := "Blockhash-1";
                          instructions := [setComputeUnitLimit 70000] |};
            signers := [Demo.wallet] |}.
  split; [| split; reflexivity].
  transitivity (fst run, snd run); [apply surjective_pairing |].
  rewrite Hsent, (Hok "Signature-1" eq_refl). reflexivity.
Defined.

Lemma buy_never_sends_witness :
  buy Example.one_pool Example.one_pool Example.coder
    Demo.getAssociatedTokenAddressSync Demo.wallet (Ok "Blockhash-1")
    Demo.compileToV0Message Demo.rpc_sendTransaction Demo.number_toString
    Demo.buy_one_sol
  = (failed (TypeError
               "Cannot mix BigInt and other types, use explicit conversions"),
     []).
Proof.
  destruct (buy_never_sends Example.one_pool Example.one_pool Example.coder
              Demo.getAssociatedTokenAddressSync Demo.wallet (Ok "Blockhash-1")
              Demo.compileToV0Message Demo.rpc_sendTransaction
              Demo.number_toString Demo.buy_one_sol) as (_ & _ & H).
  destruct one_pool_best as (p & Hp & HB & HQ).
  apply (H p 1000000000
           (JS.sub (JS.Number 500000000)
              (JS.div (JS.mul (JS.Number 500000000) (JS.Number 50000000000))
                 (JS.StringToNumber (BN.plus_bigint 50000000000 1000000000))))
           500 Hp eq_refl);
    [| reflexivity].
  rewrite (buy_quote_eq _ _ _ p Hp), HB, HQ. reflexivity.
Defined.

Lemma buy_failure_reports_witness :
  buy Example.nothing_listed Example.one_pool Example.coder
    Demo.getAssociatedTokenAddressSync
    Demo.wallet (Ok "Blockhash-1") Demo.compileToV0Message
    Demo.rpc_sendTransaction Demo.number_toString Demo.buy_one_sol
  = (failed (Error "No pool found for token 7GCihgDB8fe6KNjn2MYtkzZcRjQy3t9GHdC8uHYmW2hr"),
     [])
  /\ snd (buy Example.one_pool Example.one_pool Example.coder
            Demo.getAssociatedTokenAddressSync
            Demo.wallet (Ok "Blockhash-1") Demo.compileToV0Message
            Demo.rpc_sendTransaction Demo.number_toString Demo.buy_fraction) = [].
Proof.
  split.
  - destruct (buy_failure_reports Example.nothing_listed Example.one_pool
                Example.coder
                Demo.getAssociatedTokenAddressSync Demo.wallet (Ok "Blockhash-1")
                Demo.compileToV0Message Demo.rpc_sendTransaction
                Demo.number_toString Demo.buy_one_sol) as (Hnone & _).
    apply Hnone. reflexivity.
  - destruct (buy_failure_reports Example.one_pool Example.one_pool Example.coder
                Demo.getAssociatedTokenAddressSync Demo.wallet (Ok "Blockhash-1")
                Demo.compileToV0Message Demo.rpc_sendTransaction
                Demo.number_toString Demo.buy_fraction) as (_ & _ & Hfrac).
    destruct one_pool_best as (p & Hp & _).
    destruct (Hfrac p _ Hp eq_refl) as [-> _]. reflexivity.
Defined.

Lemma sell_requires_amount_witness :
  sellExactAmount Example.nothing_listed Example.nothing_listed Example.coder
    Demo.getAssociatedTokenAddressSync Demo.wallet
    (Throw (RpcError "node is down")) Demo.compileToV0Message
    Demo.rpc_sendTransaction Demo.number_toString Demo.sell_half
  = (failed (Error "Exact amount is required for sellExactAmount"), []).
Proof.
  apply sell_requires_amount. left. reflexivity.
Defined.

Lemma sell_never_sends_witness :
  sellExactAmount Example.one_pool Example.one_pool Example.coder
    Demo.getAssociatedTokenAddressSync Demo.wallet (Ok "Blockhash-1")
    Demo.compileToV0Message Demo.rpc_sendTransaction Demo.number_toString
    Demo.sell_two_tokens
  = (failed (TypeError
               "Cannot mix BigInt and other types, use explicit conversions"),
     []).
Proof.
  destruct (sell_never_sends Example.one_pool Example.one_pool Example.coder
              Demo.getAssociatedTokenAddressSync Demo.wallet (Ok "Blockhash-1")
              Demo.compileToV0Message Demo.rpc_sendTransaction
              Demo.getTokenAccountBalance Demo.number_toString
              Demo.sell_two_tokens) as (_ & _ & _ & _ & H).
  destruct one_pool_best as (p & Hp & HB & HQ).
  apply (H (JS.Number 2) p 2000000
           (JS.sub (JS.Number 50000000000)
              (JS.div (JS.mul (JS.Number 500000000) (JS.Number 50000000000))
                 (JS.StringToNumber (BN.plus_bigint 500000000 2000000))))
           300 eq_refl eq_refl Hp eq_refl);
    [| reflexivity].
  rewrite (sell_quote_eq _ _ _ p Hp), HB, HQ. reflexivity.
Defined.

Lemma sellPercentage_checks_witness :
  sellPercentage Example.one_pool Example.one_pool Example.coder
    Demo.getAssociatedTokenAddressSync
    Demo.wallet (Ok "Blockhash-1") Demo.compileToV0Message
    Demo.rpc_sendTransaction Demo.balance_unavailable Demo.number_toString
    Demo.sell_half
  = (failed (Error "No tokens to sell"), []).
Proof.
  destruct (sellPercentage_checks Example.one_pool Example.one_pool Example.coder
              Demo.getAssociatedTokenAddressSync Demo.wallet (Ok "Blockhash-1")
              Demo.compileToV0Message Demo.rpc_sendTransaction
              Demo.balance_unavailable Demo.number_toString Demo.sell_half)
    as [_ Hin].
  destruct Hin as [Hnone _]; [reflexivity | reflexivity |].
  apply Hnone. right. eexists. split; [reflexivity |].
  left. eexists. reflexivity.
Defined.

Lemma sellPercentage_of_nan_witness :
  sellPercentage Example.one_pool Example.one_pool Example.coder
    Demo.getAssociatedTokenAddressSync
    Demo.wallet (Ok "Blockhash-1") Demo.compileToV0Message
    Demo.rpc_sendTransaction Demo.getTokenAccountBalance Demo.number_toString
    Demo.sell_nan
  = (failed (Error "Exact amount is required for sellExactAmount"), []).
Proof.
  apply sellPercentage_of_nan; reflexivity.
Defined.

(** * Discovery: decoding and provenance *)

Lemma map_throwing_throw {A B : Type} (f : A -> result B) (l : list A) :
  (exists x e, In x l /\ f x = Throw e) -> exists e, map_throwing f l = Throw e.
Proof.
  induction l as [| x l IH]; intros (y & e & Hin & Hy); [destruct Hin |].
  cbn [map_throwing]. destruct (f x) as [v | e'] eqn:Ex; cbn [bind]; [| eauto].
  destruct Hin as [-> | Hin]; [congruence |].
  destruct IH as [e'' ->]; [eauto |]. cbn [bind]. eauto.
Qed.

Lemma map_throwing_ok {A B : Type} (f : A -> result B) (l : list A) (l' : list B) :
  map_throwing f l = Ok l' ->
  forall y, In y l' -> exists x, In x l /\ f x = Ok y.
Proof.
  revert l'. induction l as [| x l IH]; intros l' H y Hy; cbn [map_throwing] in H.
  - injection H as <-. destruct Hy.
  - destruct (f x) as [v | e] eqn:Ex; cbn [bind] in H; [| discriminate].
    destruct (map_throwing f l) as [vs | e] eqn:El; cbn [bind] in H; [| discriminate].
    injection H as <-. destruct Hy as [<- | Hy].
    + exists x. split; [now left | exact Ex].
    + destruct (IH vs eq_refl y Hy) as (x' & Hin & Hx'). exists x'. split; [now right | exact Hx'].
Qed.

(** X16: discovery aborts on an account it cannot decode: one such account
    in the answer to any of the three lookups makes the whole discovery
    throw, although the other accounts could be decoded. *)
Theorem undecodable_account_fails_discovery (connection : Connection)
    (coder : Coder) (mint : PublicKey) (filters : list Filter)
    (response : list KeyedAccount) (account : KeyedAccount) (e : error) :
  filters = baseMintFilters mint \/ filters = quoteMintFilters mint
  \/ filters = baseMintQuoteWSOLFilters mint ->
  getProgramAccounts connection PROGRAM_IDS.PUMP_AMM filters = Ok response ->
  In account response ->
  decode coder "pool" (account_data account) = Throw e ->
  exists e',
    getPoolsWithPrices connection coder mint = Throw e'
    /\ getBestPool connection coder mint = Throw e'
    /\ getPrice connection coder mint = Throw e'.
Proof.
  intros Hf Hr Hin Hd.
  assert (Hmap : forall flag, exists e', map_throwing (decode_pool coder flag) response = Throw e').
  { intros flag. apply map_throwing_throw. exists account, e. split; [exact Hin |].
    unfold decode_pool. now rewrite Hd. }
  destruct (getPoolsWithPrices_lookup_throws connection coder mint) as [e' He'].
  { unfold getPoolsWithBaseMint, getPoolsWithQuoteMint, getPoolsWithBaseMintQuoteWSOL.
    destruct Hf as [-> | [-> | ->]]; rewrite Hr; cbn [bind].
    - left. apply Hmap.
    - right. left. apply Hmap.
    - right. right. apply Hmap. }
  exists e'. unfold getPrice, getBestPool. rewrite He'. auto.
Qed.

(** X17: discovery invents no pool.  Every pool it returns was decoded from
    an account that one of the three lookups returned, keeps that account's
    address, and is flagged [is_native_base] exactly when it was found by
    the lookup of the token as quote. *)
Theorem discovered_pool_provenance (connection : Connection) (coder : Coder)
    (mint : PublicKey) (out : list PoolWithPrice) (p : PoolWithPrice) :
  getPoolsWithPrices connection coder mint = Ok out ->
  In p out ->
  exists (filters : list Filter) (response : list KeyedAccount)
         (account : KeyedAccount),
    getProgramAccounts connection PROGRAM_IDS.PUMP_AMM filters = Ok response
    /\ In account response
    /\ address p = pubkey account
    /\ decode coder "pool" (account_data account) = Ok (poolData p)
    /\ (((filters = baseMintFilters mint \/ filters = baseMintQuoteWSOLFilters mint)
         /\ is_native_base p = false)
        \/ (filters = quoteMintFilters mint /\ is_native_base p = true)).
Proof.
  intros Hout Hin.
  destruct (getPoolsWithPrices_ok_inv connection coder mint out Hout)
    as (b & q & w & priced & Hb & Hq & Hw & Hall & ->).
  apply filter_In in Hin. destruct Hin as [Hin _].
  assert (Hp : exists pool, In pool (b ++ q ++ w) /\ toPool p = pool).
  { clear - Hall Hin. induction Hall as [| pool p' l l' Hp' _ IH]; [destruct Hin |].
    destruct Hin as [-> | Hin].
    - exists pool. split; [now left |].
      now destruct (getPriceAndLiquidity_ok pool p Hp') as [-> _].
    - destruct (IH Hin) as (pool' & Hin' & E). exists pool'. split; [now right | exact E]. }
  destruct Hp as (pool & Hpool & Ep). rewrite Ep.
  assert (Hlookup : forall flag filters pools,
             (let* response := getProgramAccounts connection PROGRAM_IDS.PUMP_AMM filters in
              map_throwing (decode_pool coder flag) response) = Ok pools ->
             In pool pools ->
             exists response account,
               getProgramAccounts connection PROGRAM_IDS.PUMP_AMM filters = Ok response
               /\ In account response
               /\ address pool = pubkey account
               /\ decode coder "pool" (account_data account) = Ok (poolData pool)
               /\ is_native_base pool = flag).
  { intros flag filters pools H Hi.
    destruct (getProgramAccounts connection PROGRAM_IDS.PUMP_AMM filters)
      as [response | e]; cbn [bind] in H; [| discriminate].
    destruct (map_throwing_ok _ _ _ H pool Hi) as (account & Ha & Hd).
    exists response, account. split; [reflexivity |]. split; [exact Ha |].
    unfold decode_pool in Hd.
    destruct (decode coder "pool" (account_data account)) as [d | e]; cbn [bind] in Hd;
      [| discriminate].
    injection Hd as <-. cbn. auto. }
  apply in_app_or in Hpool. destruct Hpool as [Hi | Hi];
    [| apply in_app_or in Hi; destruct Hi as [Hi | Hi]].
  - destruct (Hlookup false (baseMintFilters mint) b Hb Hi)
      as (response & account & H1 & H2 & H3 & H4 & H5).
    exists (baseMintFilters mint), response, account. auto 10.
  - destruct (Hlookup true (quoteMintFilters mint) q Hq Hi)
      as (response & account & H1 & H2 & H3 & H4 & H5).
    exists (quoteMintFilters mint), response, account. auto 10.
  - destruct (Hlookup false (baseMintQuoteWSOLFilters mint) w Hw Hi)
      as (response & account & H1 & H2 & H3 & H4 & H5).
    exists (baseMintQuoteWSOLFilters mint), response, account. auto 10.
Qed.

Lemma undecodable_account_fails_discovery_witness :
  exists e' : error,
    getPoolsWithPrices
      (Example.rpc (Ok [Example.account "PoolA" 500000000 50000000000;
                        {| pubkey := "PoolX"; account_data := [] |}])
         (Ok []) (Ok []))
      Example.coder Example.mint = Throw e'
    /\ getBestPool
         (Example.rpc (Ok [Example.account "PoolA" 500000000 50000000000;
                           {| pubkey := "PoolX"; account_data := [] |}])
            (Ok []) (Ok []))
         Example.coder Example.mint = Throw e'
    /\ getPrice
         (Example.rpc (Ok [Example.account "PoolA" 500000000 50000000000;
                           {| pubkey := "PoolX"; account_data := [] |}])
            (Ok []) (Ok []))
         Example.coder Example.mint = Throw e'.
Proof.
  apply (undecodable_account_fails_discovery _ Example.coder Example.mint
           (baseMintFilters Example.mint)
           [Example.account "PoolA" 500000000 50000000000;
            {| pubkey := "PoolX"; account_data := [] |}]
           {| pubkey := "PoolX"; account_data := [] |}
           (DecodeError "Invalid account data")).
  - left. reflexivity.
  - reflexivity.
  - right. left. reflexivity.
  - reflexivity.
Defined.

Lemma listed_twice_pools :
  exists (a q a' : PoolWithPrice),
    getPoolsWithPrices Example.listed_twice Example.coder Example.mint
    = Ok [a; q; a'].
Proof. vm_compute. do 3 eexists. reflexivity. Qed.

Lemma discovered_pool_provenance_witness :
  exists (a q a' : PoolWithPrice) (response : list KeyedAccount)
         (account : KeyedAccount),
    getPoolsWithPrices Example.listed_twice Example.coder Example.mint
    = Ok [a; q; a']
    /\ getProgramAccounts Example.listed_twice PROGRAM_IDS.PUMP_AMM
         (quoteMintFilters Example.mint) = Ok response
    /\ In account response
    /\ address q = pubkey account
    /\ is_native_base q = true.
Proof.
  destruct listed_twice_pools as (a & q & a' & Hout).
  destruct (discovered_pool_provenance Example.listed_twice Example.coder
              Example.mint [a; q; a'] q Hout)
    as (filters & response & account & Hr & Hin & Haddr & _ & Hflag).
  { right. left. reflexivity. }
  exists a, q, a'.
  assert (Hq : is_native_base q = true).
  { clear - Hout. vm_compute in Hout. now injection Hout as _ <- _. }
  destruct Hflag as [[_ Hfalse] | [-> Htrue]]; [congruence |].
  exists response, account. auto.
Defined.

(** * getPoolInfo *)



(** * Environment variables *)

Section EnvFacts.

Variable env : string -> option string.

Lemma env_unset_false (name : string) :
  env_unset env name = false <-> exists value, env name = Some value /\ value <> "".
Proof.
  unfold env_unset. destruct (env name) as [v |].
  - destruct (String.eqb_spec v "") as [-> | N]; split.
    + discriminate.
    + intros (value & E & Hne). injection E as <-. contradiction.
    + eauto.
    + reflexivity.
  - split; [discriminate | intros (value & E & _); discriminate].
Qed.

(** X19: [retrieveEnvVariable] returns a value exactly when the variable is
    defined and not empty; a variable defined as the empty string is
    reported as not set, and [retrieveEnvVariableWithDefault] falls back to
    the default in exactly the cases where [retrieveEnvVariable] throws. *)
Theorem retrieveEnvVariable_outcomes (name : string) :
  (forall value, retrieveEnvVariable env name = Ok value
                 <-> env name = Some value /\ value <> "")
  /\ (env name = None \/ env name = Some "" ->
      retrieveEnvVariable env name
      = Throw (Error (name ++ " is not set in environment variables"))
      /\ forall defaultValue,
           retrieveEnvVariableWithDefault env name defaultValue = defaultValue)
  /\ (forall value, retrieveEnvVariable env name = Ok value ->
        forall defaultValue,
          retrieveEnvVariableWithDefault env name defaultValue = value).
Proof.
  unfold retrieveEnvVariable, retrieveEnvVariableWithDefault.
  destruct (env name) as [v |]; [destruct (String.eqb_spec v "") as [-> | N] |].
  - split; [| split].
    + intros value. split; [discriminate | intros [E Hne]; injection E as <-; contradiction].
    + intros _. split; reflexivity.
    + intros value H. discriminate.
  - split; [| split].
    + intros value. split.
      * intros H. injection H as <-. auto.
      * intros [E _]. now injection E as <-.
    + intros [H | H]; [discriminate | injection H as ->; contradiction].
    + intros value H d. now injection H as <-.
  - split; [| split].
    + intros value. split; [discriminate | intros [E _]; discriminate].
    + intros _. split; reflexivity.
    + intros value H. discriminate.
Qed.

(** X20: [validateRequiredEnvVariables] passes exactly when every required
    variable is defined and not empty, and then [retrieveEnvVariable]
    succeeds on each of them; otherwise its message lists the missing
    variables, in the order in which they were required. *)
Theorem validateRequiredEnvVariables_outcomes (required : list string) :
  (validateRequiredEnvVariables env required = Ok tt
   <-> forall name, In name required ->
                    exists value, env name = Some value /\ value <> "")
  /\ (validateRequiredEnvVariables env required = Ok tt ->
      forall name, In name required ->
                   exists value, retrieveEnvVariable env name = Ok value)
  /\ (forall e, validateRequiredEnvVariables env required = Throw e ->
        exists missing,
          missing = filter (env_unset env) required
          /\ missing <> []
          /\ (forall name, In name missing
                           <-> In name required /\ retrieveEnvVariable env name
                               = Throw (Error (name ++ " is not set in environment variables")))
          /\ e = Error ("Missing required environment variables: "
                        ++ String.concat ", " missing)).
Proof.
  assert (Hiff : validateRequiredEnvVariables env required = Ok tt
                 <-> forall name, In name required ->
                                  exists value, env name = Some value /\ value <> "").
  { unfold validateRequiredEnvVariables.
    destruct (filter (env_unset env) required) as [| m ms] eqn:Hf; cbn.
    - split; [| reflexivity]. intros _ name Hin.
      apply env_unset_false.
      destruct (env_unset env name) eqn:Hu; [| reflexivity].
      assert (In name (filter (env_unset env) required))
        by (apply filter_In; auto).
      rewrite Hf in H. destruct H.
    - split; [discriminate |]. intros H.
      assert (Hm : In m (filter (env_unset env) required)) by (rewrite Hf; now left).
      apply filter_In in Hm. destruct Hm as [Hin Hu].
      apply H, env_unset_false in Hin. congruence. }
  split; [exact Hiff |]. split.
  - intros H name Hin. destruct Hiff as [Hiff _].
    destruct (Hiff H name Hin) as (value & E & Hne).
    exists value. unfold retrieveEnvVariable. rewrite E.
    destruct (String.eqb_spec value "") as [-> | _]; [contradiction | reflexivity].
  - intros e H. unfold validateRequiredEnvVariables in H. cbv zeta in H.
    destruct (0 <? List.length (filter (env_unset env) required))%nat eqn:Hlen;
      [| discriminate].
    injection H as <-. exists (filter (env_unset env) required).
    split; [reflexivity |].
    split; [intros E; rewrite E in Hlen; discriminate |].
    split; [| reflexivity].
    intros name. rewrite filter_In. apply and_iff_compat_l.
    unfold env_unset, retrieveEnvVariable.
    destruct (env name) as [v |]; [destruct (String.eqb v "") |];
      split; intros; (reflexivity || discriminate).
Qed.

(** X21: [retrieveNumericEnvVariable] returns either the default or the
    number [parseInt] read from a defined, non-empty value; it keeps a
    parsed 0 and never returns NaN unless the default is NaN. *)
Theorem retrieveNumericEnvVariable_outcomes (parseInt : string -> JS.number)
    (name : string) (defaultValue : JS.number) :
  (retrieveNumericEnvVariable env parseInt name defaultValue = defaultValue
   \/ exists value,
        env name = Some value /\ value <> ""
        /\ parseInt value <> S754_nan
        /\ retrieveNumericEnvVariable env parseInt name defaultValue
           = parseInt value)
  /\ (forall value, env name = Some value -> value <> "" ->
        parseInt value <> S754_nan ->
        retrieveNumericEnvVariable env parseInt name defaultValue = parseInt value)
  /\ (env_unset env name = true ->
      retrieveNumericEnvVariable env parseInt name defaultValue = defaultValue)
  /\ (defaultValue <> S754_nan ->
      retrieveNumericEnvVariable env parseInt name defaultValue <> S754_nan).
Proof.
  unfold retrieveNumericEnvVariable, env_unset.
  destruct (env name) as [v |]; [destruct (String.eqb_spec v "") as [-> | N] |].
  - repeat split; auto. intros value E Hne. injection E as <-. contradiction.
  - cbv zeta. destruct (parseInt v) eqn:Hp; cbn [isNaN].
    all: repeat split; auto; try discriminate.
    all: try (intros value E Hne Hnan; injection E as <-; congruence).
    all: right; exists v; rewrite Hp; repeat split; auto; discriminate.
  - repeat split; auto. intros value E. discriminate.
Qed.

End EnvFacts.

Lemma validateRequiredEnvVariables_outcomes_witness :
  (exists missing : list string,
     validateRequiredEnvVariables Demo.process_env
       ["RPC_ENDPOINT"; "LOG_LEVEL"; "PRIVATE_KEY"]
     = Throw (Error ("Missing required environment variables: "
                     ++ String.concat ", " missing))
     /\ missing = ["LOG_LEVEL"; "PRIVATE_KEY"])
  /\ validateRequiredEnvVariables Demo.process_env ["RPC_ENDPOINT"] = Ok tt.
Proof.
  split.
  - destruct (validateRequiredEnvVariables_outcomes Demo.process_env
                ["RPC_ENDPOINT"; "LOG_LEVEL"; "PRIVATE_KEY"]) as (_ & _ & H).
    destruct (H (Error "Missing required environment variables: LOG_LEVEL, PRIVATE_KEY")
                eq_refl) as (missing & Hm & _ & _ & E).
    exists missing. split; [rewrite <- E; reflexivity | rewrite Hm; reflexivity].
  - destruct (validateRequiredEnvVariables_outcomes Demo.process_env
                ["RPC_ENDPOINT"]) as (H & _).
    apply H. intros name [<- | []]. eexists. split; [reflexivity | discriminate].
Defined.
